(** * ssproxy: the SOCKS5 negotiator and the CONNECT tunnel of [proxy.py]

    A shallow embedding of [StreamChannel] (method selection, request
    parsing, teardown) and of the tunnel callbacks of [HttpProxyHandler],
    followed by the properties the specification states about them.

    Coroutines are functions in a state-and-exception monad over the object
    they run on ([self]); a [yield] on a stream read is the read itself.
    Bytes are [Byte.byte], Python integers are [N], slices are [firstn] and
    [skipn]. *)

From Stdlib Require Import List Arith NArith Bool Lia String Ascii DecimalString.
From Stdlib Require Import Strings.Byte.
Import ListNotations.

Set Implicit Arguments.

(** ** Exceptions and outcomes *)

(** The exceptions the modelled code can meet. *)
Inductive exn : Type :=
| StreamClosedError   (* tornado.iostream: read or write on a finished stream *)
| StructError         (* struct.error: buffer of the wrong size *)
| IndexError          (* subscript out of range *)
| TypeError           (* ord() of something that is not one byte *)
| OSError             (* socket.inet_ntoa: packed address of the wrong length *)
| AttributeError      (* attribute of None *)
| ConnectError.       (* the connector could not reach the destination *)

Inductive outcome (A : Type) : Type :=
| Ret (a : A)
| Raise (e : exn).

Arguments Ret {A} a.
Arguments Raise {A} e.

(** ** The monad: state [S] threaded through, exceptions keep the state *)

Definition M (S A : Type) : Type := S -> outcome A * S.

Definition ret {S A : Type} (a : A) : M S A := fun s => (Ret a, s).

Definition raise {S A : Type} (e : exn) : M S A := fun s => (Raise e, s).

Definition bind {S A B : Type} (m : M S A) (k : A -> M S B) : M S B :=
  fun s =>
    match m s with
    | (Ret a, s') => k a s'
    | (Raise e, s') => (Raise e, s')
    end.

Declare Scope py_scope.
Delimit Scope py_scope with py.

Notation "x <- m ;; k" := (bind m (fun x => k))
  (at level 100, m at next level, right associativity) : py_scope.
Notation "m ;; k" := (bind m (fun _ => k))
  (at level 100, right associativity) : py_scope.

Local Open Scope py_scope.
Local Open Scope N_scope.

(** ** Python values the code handles *)

(** What a coroutine of [StreamChannel] hands back: [gen.Return(False)],
    [gen.Return(True)], or nothing at all ([None]) when the body runs off its
    end. *)
Inductive pyret : Type :=
| PyNone
| PyBool (b : bool).

(** Python truth of such a value: only [True] is true. *)
Definition truthy (r : pyret) : bool :=
  match r with
  | PyNone => false
  | PyBool b => b
  end.

(** [dest_addr] is a [str] from [socket.inet_ntoa], a [str] from
    [common.inet_ntop], or the raw [bytes] of a host name. *)
Inductive address : Type :=
| Inet4 (text : string)
| Inet6 (packed : list byte)
| Host (name : list byte).

(** Modelled from the spec: [common.ord] belongs to the repository's module
    [common], which is not among the sources; it is taken to give the integer
    value of one byte. *)
Definition ord (b : byte) : N := Byte.to_N b.

(** [common.ord] applied to a [bytes] object, as on the length byte of a
    host name: defined on exactly one byte. *)
Definition ord_bytes {S : Type} (bs : list byte) : M S N :=
  match bs with
  | [b] => ret (ord b)
  | _ => raise TypeError
  end.

(** [data[i]] *)
Definition item {S : Type} (data : list byte) (i : nat) : M S byte :=
  match nth_error data i with
  | Some b => ret b
  | None => raise IndexError
  end.

(** [struct.unpack("!H", buf)[0]]: one unsigned 16-bit integer, network byte
    order; the buffer must hold exactly two bytes. *)
Definition struct_unpack_H {S : Type} (buf : list byte) : M S N :=
  match buf with
  | [hi; lo] => ret (256 * ord hi + ord lo)
  | _ => raise StructError
  end.

Definition decimal (n : N) : string := NilZero.string_of_uint (N.to_uint n).

(** [socket.inet_ntoa(packed)]: dotted quad of exactly four bytes. *)
Definition inet_ntoa {S : Type} (packed : list byte) : M S string :=
  match packed with
  | [a; b; c; d] =>
      ret (decimal (ord a) ++ "." ++ decimal (ord b) ++ "."
           ++ decimal (ord c) ++ "." ++ decimal (ord d))%string
  | _ => raise OSError
  end.

(** Modelled from the spec: [common.inet_ntop] belongs to the repository's
    module [common], which is not among the sources; its result for sixteen
    packed bytes is kept as the colon-hex address of those bytes, unrendered. *)
Definition inet_ntop_AF_INET6 {S : Type} (packed : list byte) : M S address :=
  if Nat.eqb (List.length packed) 16 then ret (Inet6 packed) else raise OSError.

(** ** Constants of [proxy.py] *)

Definition SOCKS5_VERSION : N := 5.

Definition SOCKS5_METHOD_NO_AUTH : N := 0.
Definition SOCKS5_METHOD_NOTHING : N := 0xFF.

Definition SOCKS5_CMD_CONNECT : N := 1.
Definition SOCKS5_CMD_BIND : N := 2.
Definition SOCKS5_CMD_UDP_ASSOCIATE : N := 3.

Definition SOCKS5_ADDRESS_TYPE_IPV4 : N := 0x01.
Definition SOCKS5_ADDRESS_TYPE_IPV6 : N := 0x04.
Definition SOCKS5_ADDRESS_TYPE_HOST : N := 0x03.
Definition SOCKS5_ADDRESS_TYPE_AUTH : N := 0x10.
Definition SOCKS5_ADDRESS_TYPE_MASK : N := 0xF.

(** The literal replies. *)
Definition reply_no_auth : list byte := [x05; x00].
Definition reply_udp_associate : list byte :=
  [x05; x07; x00; x01; x00; x00; x00; x00; x10; x10].
Definition reply_bind : list byte := [x05; x07; x00; x03; x00; xff; xff].
Definition reply_success : list byte :=
  [x05; x00; x00; x01; x00; x00; x00; x00; x10; x10].

(** ** [StreamChannel]: one accepted SOCKS5 connection *)

Module Socks.

(** The client's stream.  [incoming] holds the segments the client sends, in
    the order they arrive and not yet consumed, after which the client ends
    the connection; [sent] is what the server has written so far. *)
Record iostream : Type := IOStream {
  incoming : list (list byte);
  sent : list byte;
  closed : bool
}.

(** One record per [logging] call of the class. *)
Inductive log_record : Type :=
| header_too_short
| unsupported_version (socks_version : N)
| no_supported_method
| udp_not_supported
| bind_not_supported
| unsupported_request (command : N)
| request_connect (dest_addr : option address) (dest_port : option N)
| destroying_local
| destroying_remote.

(** [self]: the two addresses of [__init__] are never read and carry nothing. *)
Record StreamChannel : Type := Channel {
  local_stream : iostream;
  remote_stream : option iostream;
  logged : list log_record
}.

Definition Co (A : Type) : Type := M StreamChannel A.

Definition set_local (s : iostream) (self : StreamChannel) : StreamChannel :=
  Channel s (remote_stream self) (logged self).

(** [self] with one more record in the log. *)
Definition noted (r : log_record) (self : StreamChannel) : StreamChannel :=
  Channel (local_stream self) (remote_stream self) (logged self ++ [r]).

Definition logging (r : log_record) : Co unit :=
  fun self => (Ret tt, noted r self).

(** [self] with [data] appended to what the open local stream has sent. *)
Definition wrote (data : list byte) (self : StreamChannel) : StreamChannel :=
  set_local (IOStream (incoming (local_stream self))
                      (sent (local_stream self) ++ data) false) self.

(** The first segment that holds a byte, and what follows it. *)
Fixpoint next_segment (segs : list (list byte))
  : option (list byte * list (list byte)) :=
  match segs with
  | [] => None
  | [] :: rest => next_segment rest
  | seg :: rest => Some (seg, rest)
  end.

(** [self.local_stream.read_bytes(num_bytes, partial=...)].
    With [partial] the read ends as soon as bytes are there and gives at most
    [num_bytes] of them; without it the read gives exactly [num_bytes] bytes.
    A client that has ended the connection before the read can be served
    finishes the stream with [StreamClosedError]. *)
Definition read_bytes (num_bytes : nat) (partial : bool) : Co (list byte) :=
  fun self =>
    let s := local_stream self in
    if closed s then (Raise StreamClosedError, self)
    else if partial then
      match next_segment (incoming s) with
      | Some (seg, rest) =>
          (Ret (firstn num_bytes seg),
           set_local (IOStream (skipn num_bytes seg :: rest) (sent s) false) self)
      | None =>
          (Raise StreamClosedError, set_local (IOStream [] (sent s) true) self)
      end
    else
      let buffer := List.concat (incoming s) in
      if Nat.leb num_bytes (List.length buffer) then
        (Ret (firstn num_bytes buffer),
         set_local (IOStream [skipn num_bytes buffer] (sent s) false) self)
      else
        (Raise StreamClosedError, set_local (IOStream [] (sent s) true) self).

(** [self.local_stream.write(data)] *)
Definition write (data : list byte) : Co unit :=
  fun self =>
    let s := local_stream self in
    if closed s then (Raise StreamClosedError, self)
    else (Ret tt, wrote data self).

(** [stream.close()]: closing twice changes nothing. *)
Definition close (s : iostream) : iostream :=
  IOStream (incoming s) (sent s) true.

(** The [for method in methods] loop with its [break]. *)
Fixpoint scan_methods (methods : list byte) (no_auth_exist : bool) : bool :=
  match methods with
  | [] => no_auth_exist
  | method :: rest =>
      if ord method =? SOCKS5_METHOD_NO_AUTH then true
      else scan_methods rest no_auth_exist
  end.

Definition socks5_auth : Co pyret :=
  data <- read_bytes 257 true ;;
  if Nat.ltb (List.length data) 3 then
    logging header_too_short ;;
    ret (PyBool false)
  else
    b0 <- item data 0 ;;
    let socks_version := ord b0 in
    b1 <- item data 1 ;;
    let n_methods := ord b1 in
    if negb (socks_version =? SOCKS5_VERSION) then
      logging (unsupported_version socks_version) ;;
      ret (PyBool false)
    else if n_methods <? 1 then
      ret (PyBool false)
    else
      let methods := skipn 2 data in
      let no_auth_exist := scan_methods methods false in
      if negb no_auth_exist then
        logging no_supported_method ;;
        ret (PyBool false)
      else
        write reply_no_auth ;;
        ret (PyBool true).

(** Lines 237 to 239: what every branch of the address decoding runs into. *)
Definition answer_request (dest_addr : option address) (dest_port : option N)
  : Co pyret :=
  logging (request_connect dest_addr dest_port) ;;
  write reply_success ;;
  ret PyNone.

Definition socks5_request : Co pyret :=
  data <- read_bytes 4 false ;;
  b0 <- item data 0 ;;
  let socks_version := ord b0 in
  if negb (socks_version =? SOCKS5_VERSION) then
    logging (unsupported_version socks_version) ;;
    ret (PyBool false)
  else
    b1 <- item data 1 ;;
    let command := ord b1 in
    if command =? SOCKS5_CMD_UDP_ASSOCIATE then
      logging udp_not_supported ;;
      write reply_udp_associate ;;
      ret (PyBool false)
    else if command =? SOCKS5_CMD_BIND then
      logging bind_not_supported ;;
      write reply_bind ;;
      ret (PyBool false)
    else if negb (command =? SOCKS5_CMD_CONNECT) then
      logging (unsupported_request command) ;;
      ret (PyBool false)
    else
      b3 <- item data 3 ;;
      let address_type := N.land (ord b3) SOCKS5_ADDRESS_TYPE_MASK in
      if address_type =? SOCKS5_ADDRESS_TYPE_IPV4 then
        data <- read_bytes 6 false ;;
        dest_addr <- inet_ntoa (firstn 4 data) ;;
        dest_port <- struct_unpack_H (firstn 4 data) ;;
        answer_request (Some (Inet4 dest_addr)) (Some dest_port)
      else if address_type =? SOCKS5_ADDRESS_TYPE_IPV6 then
        data <- read_bytes 18 false ;;
        dest_addr <- inet_ntop_AF_INET6 (firstn 16 data) ;;
        dest_port <- struct_unpack_H (skipn 16 data) ;;
        answer_request (Some dest_addr) (Some dest_port)
      else if address_type =? SOCKS5_ADDRESS_TYPE_HOST then
        _len <- read_bytes 1 false ;;
        _len <- ord_bytes _len ;;
        if (_len <=? 0) || (128 <? _len) then
          ret (PyBool false)
        else
          data <- read_bytes (N.to_nat _len + 2) false ;;
          let dest_addr := firstn (N.to_nat _len) data in
          dest_port <- struct_unpack_H (skipn (N.to_nat _len) data) ;;
          answer_request (Some (Host dest_addr)) (Some dest_port)
      else
        answer_request None None.

(** [destroy]: a stream object is true, [None] is not. *)
Definition destroy : Co unit :=
  fun self =>
    let self1 :=
      Channel (close (local_stream self)) (remote_stream self)
              (logged self ++ [destroying_local]) in
    match remote_stream self1 with
    | Some r =>
        (Ret tt, Channel (local_stream self1) (Some (close r))
                         (logged self1 ++ [destroying_remote]))
    | None => (Ret tt, self1)
    end.

Definition start : Co unit :=
  r <- socks5_auth ;;
  if negb (truthy r) then
    destroy
  else
    r <- socks5_request ;;
    if negb (truthy r) then
      destroy
    else
      destroy.

(** [StreamChannel(stream, address)] as [handle_stream] builds it. *)
Definition accept (segments : list (list byte)) : StreamChannel :=
  Channel (IOStream segments [] false) None [].

(** The method bytes the message itself announces: [NMETHODS] bytes after the
    two header bytes.  The code never computes this; the specification's wire
    format does. *)
Definition declared_methods (data : list byte) : list byte :=
  match data with
  | _ :: n :: rest => firstn (N.to_nat (ord n)) rest
  | _ => []
  end.

(** A coroutine that leaves [self.remote_stream] as it found it. *)
Definition keeps_remote {A : Type} (m : Co A) : Prop :=
  forall self, remote_stream (snd (m self)) = remote_stream self.

(** A coroutine none of whose results is true for Python. *)
Definition never_true (m : Co pyret) : Prop :=
  forall self r self', m self = (Ret r, self') -> truthy r = false.

(** A coroutine that takes bytes off the front of what the client has sent
    and does nothing else to it. *)
Definition consumes {A : Type} (m : Co A) : Prop :=
  forall self, exists k,
    List.concat (incoming (local_stream (snd (m self))))
    = skipn k (List.concat (incoming (local_stream self))).

End Socks.

(** ** [HttpProxyHandler]: the CONNECT tunnel *)

Module Http.

Inductive side : Type := Client | Upstream.

Definition other (who : side) : side :=
  match who with
  | Client => Upstream
  | Upstream => Client
  end.

(** The four callables [start_tunnel] hands to [read_until_close]. *)
Inductive callback : Type :=
| Cb_client_close      (* self.client_close *)
| Cb_upstream_close    (* self.upstream_close *)
| Cb_upstream_write    (* self.upstream.write *)
| Cb_client_write.     (* self.client.write *)

(** A stream of the tunnel: what has been written to it, whether it is
    closed, and the callbacks a [read_until_close] has left on it. *)
Record iostream : Type := IOStream {
  sent : list byte;
  closed : bool;
  close_callback : option callback;
  streaming_callback : option callback
}.

Inductive log_record : Type :=
| start_connect
| client_closing
| upstream_closing
| tunnel_established.

(** [self]: both attributes are [None] after [__init__]. *)
Record HttpProxyHandler : Type := Handler {
  client : option iostream;
  upstream : option iostream;
  logged : list log_record
}.

Definition Cb (A : Type) : Type := M HttpProxyHandler A.

(** What a future holds once it is done. *)
Inductive future (A : Type) : Type :=
| Done (value : A)
| Failed (e : exn).

Arguments Done {A} value.
Arguments Failed {A} e.

(** [future.result()] *)
Definition result {A : Type} (f : future A) : Cb A :=
  match f with
  | Done value => ret value
  | Failed e => raise e
  end.

Definition logging (r : log_record) : Cb unit :=
  fun self => (Ret tt, Handler (client self) (upstream self) (logged self ++ [r])).

Definition stream_of (who : side) (self : HttpProxyHandler) : option iostream :=
  match who with
  | Client => client self
  | Upstream => upstream self
  end.

Definition set_stream (who : side) (s : iostream) (self : HttpProxyHandler)
  : HttpProxyHandler :=
  match who with
  | Client => Handler (Some s) (upstream self) (logged self)
  | Upstream => Handler (client self) (Some s) (logged self)
  end.

(** [self.client] or [self.upstream] as the receiver of a method call. *)
Definition attr (who : side) : Cb iostream :=
  fun self =>
    match stream_of who self with
    | Some s => (Ret s, self)
    | None => (Raise AttributeError, self)
    end.

(** [stream.closed()] *)
Definition is_closed (who : side) : Cb bool :=
  s <- attr who ;;
  ret (closed s).

(** [stream.write(data)] *)
Definition write (who : side) (data : list byte) : Cb unit :=
  s <- attr who ;;
  if closed s then raise StreamClosedError
  else fun self =>
    (Ret tt,
     set_stream who (IOStream (sent s ++ data) false (close_callback s)
                              (streaming_callback s)) self).

(** [stream.close()] *)
Definition close (who : side) : Cb unit :=
  s <- attr who ;;
  fun self =>
    (Ret tt,
     set_stream who (IOStream (sent s) true (close_callback s)
                              (streaming_callback s)) self).

(** [stream.read_until_close(callback, streaming_callback)] *)
Definition read_until_close (who : side) (cb scb : callback) : Cb unit :=
  s <- attr who ;;
  fun self =>
    (Ret tt, set_stream who (IOStream (sent s) (closed s) (Some cb) (Some scb)) self).

(** Python truth of a [bytes] argument ([None] and [b''] are both false). *)
Definition nonempty (data : list byte) : bool :=
  match data with
  | [] => false
  | _ :: _ => true
  end.

Definition client_close (data : list byte) : Cb unit :=
  logging client_closing ;;
  c <- is_closed Upstream ;;
  if c then ret tt
  else
    (if nonempty data then write Upstream data else ret tt) ;;
    close Upstream.

Definition upstream_close (data : list byte) : Cb unit :=
  logging upstream_closing ;;
  c <- is_closed Client ;;
  if c then ret tt
  else
    (if nonempty data then write Client data else ret tt) ;;
    close Client.

Definition connection_established : list byte :=
  list_byte_of_string "HTTP/1.0 200 Connection established"
  ++ [x0d; x0a; x0d; x0a].

Definition start_tunnel (f : future iostream) : Cb unit :=
  u <- result f ;;
  (fun self => (Ret tt, Handler (client self) (Some u) (logged self))) ;;
  logging tunnel_established ;;
  read_until_close Client Cb_client_close Cb_upstream_write ;;
  read_until_close Upstream Cb_upstream_close Cb_client_write ;;
  write Client connection_established.

(** [connect]: [stream] is [self.request.connection.stream]; the connector's
    future is handed to [start_tunnel] by the loop once it is done. *)
Definition connect (stream : iostream) (f : future iostream) : Cb unit :=
  logging start_connect ;;
  (fun self => (Ret tt, Handler (Some stream) (upstream self) (logged self))) ;;
  start_tunnel f.

(** *** What the loop does with the callbacks *)

Definition run_callback (cb : callback) (data : list byte) : Cb unit :=
  match cb with
  | Cb_client_close => client_close data
  | Cb_upstream_close => upstream_close data
  | Cb_upstream_write => write Upstream data
  | Cb_client_write => write Client data
  end.

(** What a stream under [read_until_close] reports: a chunk that has been
    read, or its end (the peer shut it down, or a transfer on it failed) with
    the data read last. *)
Inductive event : Type :=
| Received (who : side) (chunk : list byte)
| Finished (who : side) (data : list byte).

(** A callback run for the stream on side [who]: when it raises, the
    framework closes that stream and lets the exception go on to the loop. *)
Definition run_for (who : side) (m : Cb unit) : Cb unit :=
  fun self =>
    match m self with
    | (Raise e, self') => (Raise e, snd (close who self'))
    | done => done
    end.

Definition deliver (ev : event) : Cb unit :=
  match ev with
  | Received who chunk =>
      s <- attr who ;;
      match streaming_callback s with
      | Some cb => run_for who (run_callback cb chunk)
      | None => ret tt
      end
  | Finished who data =>
      s <- attr who ;;
      close who ;;
      match close_callback s with
      | Some cb => run_for who (run_callback cb data)
      | None => ret tt
      end
  end.

(** The loop logs what a callback raises and carries on, with the stream
    whose callback raised closed as [deliver] has left it. *)
Fixpoint run_events (evs : list event) (self : HttpProxyHandler)
  : HttpProxyHandler :=
  match evs with
  | [] => self
  | ev :: rest => run_events rest (snd (deliver ev self))
  end.

(** Both streams are in place and carry the callbacks of [start_tunnel]. *)
Definition relaying (self : HttpProxyHandler) : Prop :=
  exists c u,
    client self = Some c /\ upstream self = Some u /\
    close_callback c = Some Cb_client_close /\
    streaming_callback c = Some Cb_upstream_write /\
    close_callback u = Some Cb_upstream_close /\
    streaming_callback u = Some Cb_client_write.

End Http.

(** ** [HttpProxyHandler]: GET and POST *)

Module Web.

(** What ends a call of the handler early. *)
Inductive failure : Type :=
| RuntimeError      (* write() or finish() on a finished reply *)
| ValueError        (* a header value the framework refuses *)
| ClientFailure.    (* what the HTTP client raises besides HTTPError *)

Inductive result (A : Type) : Type :=
| Ok (a : A)
| Err (e : failure).

Arguments Ok {A} a.
Arguments Err {A} e.

Definition header : Type := (string * string)%type.

(** What [client.fetch] gives back.  [error] is [response.error]: nothing,
    or an exception with its text and whether it is an
    [httpclient.HTTPError]. *)
Record HTTPResponse : Type := Response {
  error : option (bool * string);
  code : N;
  reason : string;
  headers : list header;
  body : option (list byte)
}.

(** [self.request]; header names are as the framework keeps them. *)
Record HTTPServerRequest : Type := ServerRequest {
  remote_ip : string;
  method : string;
  uri : string;
  request_headers : list header;
  request_body : list byte
}.

(** The [httpclient.HTTPRequest] that [get] builds. *)
Record HTTPRequest : Type := ClientRequest {
  url : string;
  client_method : string;
  client_body : list byte;
  client_headers : list header;
  follow_redirects : bool;
  allow_nonstandard_methods : bool
}.

(** How [client.fetch] can end. *)
Inductive fetched : Type :=
| Fetched (response : HTTPResponse)
| RaisedHTTPError (response : option HTTPResponse) (text : string)
| RaisedOther.

Inductive log_record : Type :=
| handle_request (ip method uri : string)
| debug_error (text : string).

(** [self]: the request and the reply under way. *)
Record RequestHandler : Type := Handler {
  request : HTTPServerRequest;
  status : N * option string;
  reply_headers : list header;
  written : list byte;
  finished : bool;
  logged : list log_record
}.

(** The upstream answered, or failed with an [HTTPError]. *)
Definition answered (response : HTTPResponse) : Prop :=
  error response = None \/ exists text, error response = Some (true, text).

Definition W (A : Type) : Type := RequestHandler -> result A * RequestHandler.

Definition ret {A : Type} (a : A) : W A := fun self => (Ok a, self).

Definition raise {A : Type} (e : failure) : W A := fun self => (Err e, self).

Definition bind {A B : Type} (m : W A) (k : A -> W B) : W B :=
  fun self =>
    match m self with
    | (Ok a, self') => k a self'
    | (Err e, self') => (Err e, self')
    end.

Declare Scope web_scope.
Delimit Scope web_scope with web.

Notation "x <- m ;; k" := (bind m (fun x => k))
  (at level 100, m at next level, right associativity) : web_scope.
Notation "m ;; k" := (bind m (fun _ => k))
  (at level 100, right associativity) : web_scope.

Local Open Scope web_scope.

Definition logging (r : log_record) : W unit :=
  fun self =>
    (Ok tt, Handler (request self) (status self) (reply_headers self)
                    (written self) (finished self) (logged self ++ [r])).

Definition set_reply_headers (hs : list header) (self : RequestHandler)
  : RequestHandler :=
  Handler (request self) (status self) hs (written self) (finished self)
          (logged self).

(** [self.set_status(status_code, reason)] *)
Definition set_status (status_code : N) (reason : option string) : W unit :=
  fun self =>
    (Ok tt, Handler (request self) (status_code, reason) (reply_headers self)
                    (written self) (finished self) (logged self)).

(** [headers.get_list(name)]: the values under [name], in order. *)
Definition get_list (name : string) (hs : list header) : list string :=
  map snd (filter (fun h => String.eqb (fst h) name) hs).

(** All headers but those called [name]. *)
Definition without (name : string) (hs : list header) : list header :=
  filter (fun h => negb (String.eqb (fst h) name)) hs.

(** The request [get] hands to the HTTP client for [self.request]. *)
Definition outgoing (rq : HTTPServerRequest) : HTTPRequest :=
  ClientRequest (uri rq) (method rq) (request_body rq)
                (without "Proxy-Connection" (request_headers rq)) false true.

Section Framework.

(** The framework's check of a header value ([ValueError] when it fails). *)
Variable acceptable : string -> bool.

(** The external HTTP client. *)
Variable fetch : HTTPRequest -> fetched.

(** [self.add_header(name, value)] *)
Definition add_header (name value : string) : W unit :=
  fun self =>
    if acceptable value then
      (Ok tt, set_reply_headers (reply_headers self ++ [(name, value)]) self)
    else (Err ValueError, self).

(** [self.set_header(name, value)] with an integer value: the one header of
    that name. *)
Definition set_header (name : string) (value : N) : W unit :=
  fun self =>
    (Ok tt,
     set_reply_headers (without name (reply_headers self) ++ [(name, decimal value)])
                       self).

(** [self.write(chunk)] *)
Definition write (chunk : list byte) : W unit :=
  fun self =>
    if finished self then (Err RuntimeError, self)
    else (Ok tt, Handler (request self) (status self) (reply_headers self)
                         (written self ++ chunk) false (logged self)).

(** [self.finish()], as far as the handler is concerned: it ends the reply,
    and a reply is ended once.  [reply_headers] and [written] are what the
    handler has set and written; what the framework adds to a reply or does
    with it on the way out is not recorded in [self]. *)
Definition finish : W unit :=
  fun self =>
    if finished self then (Err RuntimeError, self)
    else (Ok tt, Handler (request self) (status self) (reply_headers self)
                         (written self) true (logged self)).

(** The names [handle_response] does not pass on. *)
Definition not_forwarded : list string :=
  ["Content-Length"; "Transfer-Encoding"; "Content-Encoding"; "Connection"]%string.

Definition is_in (name : string) (names : list string) : bool :=
  existsb (String.eqb name) names.

(** The loop over [response.headers.get_all()]. *)
Fixpoint forward_headers (hs : list header) : W unit :=
  match hs with
  | [] => ret tt
  | (name, v) :: rest =>
      (if negb (is_in name not_forwarded) then add_header name v else ret tt) ;;
      forward_headers rest
  end.

Definition internal_server_error (text : string) : list byte :=
  list_byte_of_string "Internal server error:" ++ [x0a]
  ++ list_byte_of_string text.

Definition handle_response (response : HTTPResponse) : W unit :=
  (match error response with
   | Some (false, text) =>
       set_status 500 None ;;
       write (internal_server_error text)
   | _ =>
       set_status (code response) (Some (reason response)) ;;
       forward_headers (headers response) ;;
       match body response with
       | Some (b :: bs) =>
           set_header "Content-Length" (N.of_nat (List.length (b :: bs))) ;;
           write (b :: bs)
       | _ => ret tt
       end
   end) ;;
  finish.

(** [del self.request.headers['Proxy-Connection']], when it is there. *)
Definition drop_proxy_connection : W unit :=
  fun self =>
    let rq := request self in
    (Ok tt,
     Handler (ServerRequest (remote_ip rq) (method rq) (uri rq)
                            (without "Proxy-Connection" (request_headers rq))
                            (request_body rq))
             (status self) (reply_headers self) (written self) (finished self)
             (logged self)).

Definition get : W unit :=
  (fun self =>
     logging (handle_request (remote_ip (request self)) (method (request self))
                             (uri (request self))) self) ;;
  drop_proxy_connection ;;
  fun self =>
    let rq := request self in
    let req := ClientRequest (uri rq) (method rq) (request_body rq)
                             (request_headers rq) false true in
    match fetch req with
    | Fetched response => handle_response response self
    | RaisedHTTPError response text =>
        (logging (debug_error text) ;;
         match response with
         | Some r => handle_response r
         | None =>
             set_status 500 None ;;
             write (internal_server_error text) ;;
             finish
         end) self
    | RaisedOther => (Err ClientFailure, self)
    end.

Definition post : W unit := get.

End Framework.

(** *** A sample exchange *)

Definition accept_all : string -> bool := fun _ => true.

Definition sample_response : HTTPResponse :=
  Response None 200 "OK"
           [("Set-Cookie", "a=1"); ("Content-Length", "999");
            ("Connection", "close"); ("Set-Cookie", "b=2")]%string
           (Some [x68; x65; x6c; x6c; x6f]).

Definition sample_failure : HTTPResponse :=
  Response (Some (false, "Connection refused"%string)) 599 "Unknown"%string
           [("X-Upstream", "1")]%string None.

Definition sample_handler : RequestHandler :=
  Handler (ServerRequest "10.0.0.1" "GET" "http://example.com/"
                         [("Host", "example.com");
                          ("Proxy-Connection", "keep-alive");
                          ("Accept", "*/*")]
                         [])%string
          (200, None) [("Server", "proxy")]%string [] false [].

End Web.

(** ** Ways of describing what a coroutine of [StreamChannel] does *)

Module Effects.

Import Socks.

(** A coroutine that writes nothing to the client. *)
Definition silent {A : Type} (m : Co A) : Prop :=
  forall self, sent (local_stream (snd (m self))) = sent (local_stream self).

(** A coroutine every run of which adds one of [outs] to what was sent. *)
Definition appends {A : Type} (outs : list (list byte)) (m : Co A) : Prop :=
  forall self, exists out,
    In out outs /\
    sent (local_stream (snd (m self))) = sent (local_stream self) ++ out.

(** The two ways a run ends in an exception: the stream is finished and the
    error says so, or [struct.error] is raised on a stream still open. *)
Definition failure_shape (e : exn) (self' : StreamChannel) : Prop :=
  (e = StreamClosedError /\ closed (local_stream self') = true) \/
  (e = StructError /\ closed (local_stream self') = false).

(** On an open stream, the coroutine returns with the stream still open or
    fails in one of the two ways. *)
Definition fails_well {A : Type} (m : Co A) : Prop :=
  forall self, closed (local_stream self) = false ->
    match m self with
    | (Ret _, self') => closed (local_stream self') = false
    | (Raise e, self') => failure_shape e self'
    end.

(** Every result of the coroutine satisfies [Q]. *)
Definition gives {A : Type} (m : Co A) (Q : A -> Prop) : Prop :=
  forall self a self', m self = (Ret a, self') -> Q a.

End Effects.

(** ** Ways of describing what a callback of the tunnel does *)

Module TunnelEffects.

Import Http.

(** The stream on side [who] is closed and has been sent exactly [snt]. *)
Definition frozen (who : side) (snt : list byte) (self : HttpProxyHandler)
  : Prop :=
  exists s, stream_of who self = Some s /\ closed s = true /\ sent s = snt.

(** A step that leaves a closed stream closed and what it was sent alone. *)
Definition keeps_frozen {A : Type} (m : Cb A) : Prop :=
  forall who snt self, frozen who snt self -> frozen who snt (snd (m self)).

End TunnelEffects.

(** * Properties of the SOCKS5 negotiator *)

Module SocksFacts.

Import Socks.

(** ** The stream primitives *)

Lemma next_segment_nonempty (segs : list (list byte)) seg rest :
  next_segment segs = Some (seg, rest) -> seg <> [].
Proof.
  induction segs as [|[|b seg'] segs IH]; simpl; intros H.
  - discriminate.
  - auto.
  - injection H as <- _. discriminate.
Qed.

(** A read that gives data leaves the stream open and touches nothing but
    the bytes it consumed. *)
Lemma read_bytes_gives (n : nat) (partial : bool) self data self1 :
  read_bytes n partial self = (Ret data, self1) ->
  closed (local_stream self) = false /\
  closed (local_stream self1) = false /\
  sent (local_stream self1) = sent (local_stream self) /\
  remote_stream self1 = remote_stream self /\
  logged self1 = logged self /\
  (List.length data <= n)%nat.
Proof.
  unfold read_bytes. destruct self as [[segs snt cl] rem lg]; simpl.
  destruct cl; [discriminate|].
  destruct partial.
  - destruct (next_segment segs) as [[seg rest]|]; [|discriminate].
    intros H; injection H as <- <-; simpl.
    repeat split; auto. apply firstn_le_length.
  - destruct (Nat.leb n (List.length (List.concat segs))); [|discriminate].
    intros H; injection H as <- <-; simpl.
    repeat split; auto. apply firstn_le_length.
Qed.

(** An exact read takes the next [length pre] buffered bytes. *)
Lemma read_bytes_exact (pre post : list byte) segs snt rem lg :
  List.concat segs = pre ++ post ->
  read_bytes (List.length pre) false (Channel (IOStream segs snt false) rem lg)
  = (Ret pre, Channel (IOStream [post] snt false) rem lg).
Proof.
  intros E. unfold read_bytes; simpl. rewrite E.
  rewrite length_app.
  replace (Nat.leb (List.length pre) (List.length pre + List.length post))
    with true by (symmetry; apply Nat.leb_le; lia).
  rewrite firstn_app, Nat.sub_diag, firstn_all; simpl. rewrite app_nil_r.
  rewrite skipn_app, Nat.sub_diag, skipn_all; simpl. reflexivity.
Qed.

Lemma write_open (data : list byte) self :
  closed (local_stream self) = false ->
  write data self = (Ret tt, wrote data self).
Proof. intros H. unfold write. rewrite H. reflexivity. Qed.

(** ** The scan for the no-authentication method *)

Lemma ord_zero (b : byte) : ord b = 0 <-> b = x00.
Proof.
  split.
  - intros H. apply (f_equal Byte.of_N) in H. unfold ord in H.
    rewrite Byte.of_to_N in H. simpl in H. congruence.
  - intros ->. reflexivity.
Qed.

Lemma scan_methods_spec (methods : list byte) :
  scan_methods methods false = true <-> In x00 methods.
Proof.
  induction methods as [|m ms IH]; simpl.
  - split; [discriminate | tauto].
  - unfold SOCKS5_METHOD_NO_AUTH.
    destruct (N.eqb_spec (ord m) 0) as [E|E].
    + apply ord_zero in E. subst. tauto.
    + rewrite IH. split; [tauto|].
      intros [H|H]; [|exact H]. subst. exfalso. apply E. reflexivity.
Qed.

Lemma declared_methods_incl (data : list byte) (m : byte) :
  In m (declared_methods data) -> In m (skipn 2 data).
Proof.
  destruct data as [|v [|n rest]]; simpl; try tauto.
  intros H.
  rewrite <- (firstn_skipn (N.to_nat (ord n)) rest).
  apply in_or_app. left. exact H.
Qed.

(** ** [socks5_auth] once its read has given [data] *)

Lemma socks5_auth_short self data self1 :
  read_bytes 257 true self = (Ret data, self1) ->
  (List.length data < 3)%nat ->
  socks5_auth self = (Ret (PyBool false), noted header_too_short self1).
Proof.
  intros R L. unfold socks5_auth, bind at 1. rewrite R.
  apply Nat.ltb_lt in L. rewrite L. reflexivity.
Qed.

Lemma socks5_auth_long self v n m ms self1 :
  read_bytes 257 true self = (Ret (v :: n :: m :: ms), self1) ->
  socks5_auth self =
  if negb (ord v =? SOCKS5_VERSION) then
    (Ret (PyBool false), noted (unsupported_version (ord v)) self1)
  else if ord n <? 1 then (Ret (PyBool false), self1)
  else if scan_methods (m :: ms) false then
    (Ret (PyBool true), wrote reply_no_auth self1)
  else (Ret (PyBool false), noted no_supported_method self1).
Proof.
  intros R.
  destruct (read_bytes_gives _ _ _ R) as (_ & Open & _).
  unfold socks5_auth, bind at 1. rewrite R.
  cbn [List.length Nat.ltb Nat.leb].
  unfold bind, item; cbn [nth_error ret skipn].
  destruct (negb (ord v =? SOCKS5_VERSION)); [reflexivity|].
  destruct (ord n <? 1); [reflexivity|].
  destruct (scan_methods (m :: ms) false); cbn [negb]; [|reflexivity].
  rewrite (write_open _ _ Open). reflexivity.
Qed.

(** ** [destroy] and [start] *)

Lemma destroy_closes self :
  exists self', destroy self = (Ret tt, self') /\
    closed (local_stream self') = true /\
    sent (local_stream self') = sent (local_stream self) /\
    incoming (local_stream self') = incoming (local_stream self) /\
    (remote_stream self = None -> remote_stream self' = None).
Proof.
  unfold destroy. destruct self as [l [r|] lg]; simpl;
    eexists; (split; [reflexivity|]); simpl; repeat split; auto; discriminate.
Qed.



(** ** What a run takes off the stream *)

Lemma next_segment_concat (segs : list (list byte)) seg rest :
  next_segment segs = Some (seg, rest) ->
  List.concat segs = seg ++ List.concat rest.
Proof.
  induction segs as [|[|b seg'] segs IH]; simpl; intros H.
  - discriminate.
  - auto.
  - injection H as <- <-. reflexivity.
Qed.

Lemma next_segment_none (segs : list (list byte)) :
  next_segment segs = None -> List.concat segs = [].
Proof.
  induction segs as [|[|b seg'] segs IH]; simpl; intros H;
    [reflexivity | auto | discriminate].
Qed.


Lemma consumes_still {A : Type} (m : Co A) :
  (forall self,
     incoming (local_stream (snd (m self))) = incoming (local_stream self)) ->
  consumes m.
Proof. intros H self. exists 0%nat. rewrite H. reflexivity. Qed.

Lemma consumes_ret {A : Type} (a : A) : consumes (ret a).
Proof. apply consumes_still. reflexivity. Qed.

Lemma consumes_raise {A : Type} (e : exn) : consumes (@raise _ A e).
Proof. apply consumes_still. reflexivity. Qed.

Lemma consumes_logging r : consumes (logging r).
Proof. apply consumes_still. reflexivity. Qed.

Lemma consumes_write data : consumes (write data).
Proof.
  apply consumes_still. intros self. unfold write.
  destruct (closed (local_stream self)); reflexivity.
Qed.

Lemma consumes_item data i : consumes (@item StreamChannel data i).
Proof.
  apply consumes_still. intros self. unfold item.
  destruct (nth_error data i); reflexivity.
Qed.

Lemma consumes_unpack buf : consumes (@struct_unpack_H StreamChannel buf).
Proof.
  apply consumes_still. intros self.
  destruct buf as [|a [|b [|c l]]]; reflexivity.
Qed.

Lemma consumes_ntoa buf : consumes (@inet_ntoa StreamChannel buf).
Proof.
  apply consumes_still. intros self.
  destruct buf as [|a [|b [|c [|d [|e l]]]]]; reflexivity.
Qed.

Lemma consumes_ntop buf : consumes (@inet_ntop_AF_INET6 StreamChannel buf).
Proof.
  apply consumes_still. intros self. unfold inet_ntop_AF_INET6.
  destruct (Nat.eqb (List.length buf) 16); reflexivity.
Qed.

Lemma consumes_ord_bytes bs : consumes (@ord_bytes StreamChannel bs).
Proof.
  apply consumes_still. intros self. destruct bs as [|a [|b l]]; reflexivity.
Qed.

Lemma consumes_destroy : consumes destroy.
Proof.
  apply consumes_still. intros self.
  destruct (destroy_closes self) as (s' & -> & _ & _ & I & _). exact I.
Qed.

Lemma consumes_read n partial : consumes (read_bytes n partial).
Proof.
  intros [[segs snt cl] rem lg]. unfold read_bytes; simpl.
  destruct cl; [exists 0%nat; reflexivity|]. destruct partial.
  - destruct (next_segment segs) as [[seg rest]|] eqn:Nx; simpl.
    + rewrite (next_segment_concat _ Nx).
      destruct (Nat.le_gt_cases n (List.length seg)) as [Le|Gt].
      * exists n. rewrite skipn_app.
        replace (n - List.length seg)%nat with 0%nat by lia. reflexivity.
      * exists (List.length seg). rewrite skipn_app, skipn_all, Nat.sub_diag.
        rewrite (skipn_all2 seg) by lia. reflexivity.
    + exists 0%nat. rewrite (next_segment_none _ Nx). reflexivity.
  - destruct (Nat.leb n (List.length (List.concat segs))); simpl.
    + exists n. apply app_nil_r.
    + exists (List.length (List.concat segs)). rewrite skipn_all. reflexivity.
Qed.

Create HintDb drain.

#[local] Hint Resolve consumes_ret consumes_raise consumes_logging
  consumes_write consumes_item consumes_unpack consumes_ntoa consumes_ntop
  consumes_ord_bytes consumes_destroy consumes_read : drain.







(** ** Method selection *)

Lemma socks5_auth_accepts self self1 (v n : byte) (methods : list byte) :
  read_bytes 257 true self = (Ret (v :: n :: methods), self1) ->
  ord v = 5 ->
  1 <= ord n ->
  In x00 methods ->
  socks5_auth self = (Ret (PyBool true), wrote reply_no_auth self1).
Proof.
  intros R V Nm Z.
  destruct methods as [|m ms]; [contradiction|].
  rewrite (socks5_auth_long _ R). rewrite V; cbn [N.eqb SOCKS5_VERSION Pos.eqb negb].
  replace (ord n <? 1) with false by (symmetry; apply N.ltb_ge; exact Nm).
  apply scan_methods_spec in Z. rewrite Z. reflexivity.
Qed.



(** The run of the witness: the request that follows is read and answered. *)
Example accepted_then_request :
  start (accept [[x05; x01; x00]; [x05; x02; x00; x01]])
  = (Ret tt,
     Channel (IOStream [[]] ([x05; x00] ++ reply_bind) true) None
             [bind_not_supported; destroying_local]).
Proof. vm_compute. reflexivity. Qed.




(** C10, as stated, fails: in 05 00 00 and in 04 01 00 the byte 0 occurs
    after the first two bytes, and yet the selection does not succeed: the
    declared count is 0 in the first, the version is not 5 in the second. *)
Lemma zero_byte_alone_does_not_select :
  ~ (fst (socks5_auth (accept [[x05; x00; x00]])) = Ret (PyBool true)
     <-> In x00 (skipn 2 [x05; x00; x00]))
  /\
  ~ (fst (socks5_auth (accept [[x04; x01; x00]])) = Ret (PyBool true)
     <-> In x00 (skipn 2 [x04; x01; x00])).
Proof.
  split; intros [_ H].
  - assert (Z : In x00 (skipn 2 [x05; x00; x00])) by (simpl; auto).
    specialize (H Z). vm_compute in H. discriminate.
  - assert (Z : In x00 (skipn 2 [x04; x01; x00])) by (simpl; auto).
    specialize (H Z). vm_compute in H. discriminate.
Qed.

(** C10, amended.  Method selection succeeds exactly when the version byte is
    5, the method count is at least 1 and the byte 0 occurs anywhere after the
    first two bytes of the first read; the declared count does not bound the
    scan, so some message whose declared methods exclude 0x00 and whose
    trailing bytes hold one is accepted. *)
Theorem method_selection_iff self self1 (data : list byte) :
  read_bytes 257 true self = (Ret data, self1) ->
  (fst (socks5_auth self) = Ret (PyBool true) <->
   exists v n methods,
     data = v :: n :: methods /\ ord v = 5 /\ 1 <= ord n /\ In x00 methods)
  /\
  (exists msg,
     ~ In x00 (declared_methods msg) /\ In x00 (skipn 2 msg) /\
     fst (socks5_auth (accept [msg])) = Ret (PyBool true)).
Proof.
  intros R. split.
  - split.
    + intros A.
      destruct (Nat.lt_ge_cases (List.length data) 3) as [Short|Long].
      { rewrite (socks5_auth_short _ R Short) in A. discriminate. }
      destruct data as [|v [|n [|m ms]]]; simpl in Long; try lia.
      rewrite (socks5_auth_long _ R) in A.
      destruct (N.eqb_spec (ord v) SOCKS5_VERSION) as [V|V]; cbn [negb] in A;
        [|discriminate].
      destruct (N.ltb_spec (ord n) 1) as [Nm|Nm]; [discriminate|].
      destruct (scan_methods (m :: ms) false) eqn:Scan; [|discriminate].
      exists v, n, (m :: ms). repeat split; auto.
      apply scan_methods_spec. exact Scan.
    + intros (v & n & methods & -> & V & Nm & Z).
      rewrite (socks5_auth_accepts _ R V Nm Z). reflexivity.
  - exists [x05; x01; x02; x00]. repeat split.
    + simpl. intros [H|[]]. discriminate.
    + simpl. auto.
Qed.

Lemma method_selection_iff_witness :
  (fst (socks5_auth (accept [[x05; x01; x00]])) = Ret (PyBool true) <->
   exists v n methods,
     [x05; x01; x00] = v :: n :: methods /\ ord v = 5 /\ 1 <= ord n /\
     In x00 methods)
  /\
  (exists msg,
     ~ In x00 (declared_methods msg) /\ In x00 (skipn 2 msg) /\
     fst (socks5_auth (accept [msg])) = Ret (PyBool true)).
Proof.
  apply (@method_selection_iff (accept [[x05; x01; x00]])
           (Channel (IOStream [[]] [] false) None []) [x05; x01; x00]).
  reflexivity.
Defined.

(** ** Request parsing *)

(** The four header bytes and what the stream holds after them. *)
Lemma read_header (b0 b1 b2 b3 : byte) (more : list byte) self :
  closed (local_stream self) = false ->
  List.concat (incoming (local_stream self)) = [b0; b1; b2; b3] ++ more ->
  read_bytes 4 false self
  = (Ret [b0; b1; b2; b3],
     set_local (IOStream [more] (sent (local_stream self)) false) self).
Proof.
  destruct self as [[segs snt cl] rem lg]; simpl. intros -> E.
  exact (@read_bytes_exact [b0; b1; b2; b3] more segs snt rem lg E).
Qed.

Lemma read_buffered (pre post : list byte) snt rem lg :
  read_bytes (List.length pre) false
    (Channel (IOStream [pre ++ post] snt false) rem lg)
  = (Ret pre, Channel (IOStream [post] snt false) rem lg).
Proof. apply read_bytes_exact. simpl. apply app_nil_r. Qed.

(** C6.  A request with version byte 5 and command UDP_ASSOCIATE is answered
    with exactly 05 07 00 01 00 00 00 00 10 10, one with command BIND with
    exactly 05 07 00 03 00 FF FF; both are refused ([False]) and the
    channel's remote stream is left as it was: nothing is opened. *)
Theorem unsupported_commands_refused self (ver cmd rsv atyp : byte)
        (more : list byte) :
  closed (local_stream self) = false ->
  List.concat (incoming (local_stream self)) = [ver; cmd; rsv; atyp] ++ more ->
  ord ver = 5 ->
  (ord cmd = SOCKS5_CMD_UDP_ASSOCIATE ->
   exists self',
     socks5_request self = (Ret (PyBool false), self') /\
     sent (local_stream self')
     = sent (local_stream self)
       ++ [x05; x07; x00; x01; x00; x00; x00; x00; x10; x10] /\
     remote_stream self' = remote_stream self)
  /\
  (ord cmd = SOCKS5_CMD_BIND ->
   exists self',
     socks5_request self = (Ret (PyBool false), self') /\
     sent (local_stream self')
     = sent (local_stream self) ++ [x05; x07; x00; x03; x00; xff; xff] /\
     remote_stream self' = remote_stream self).
Proof.
  intros Open E V.
  pose proof (read_header _ Open E) as R.
  split; intros C; eexists;
    (split; [unfold socks5_request, bind at 1; rewrite R;
             unfold bind, item; cbn [nth_error ret];
             rewrite V, C; cbn; reflexivity|]);
    simpl; auto.
Qed.

Lemma unsupported_commands_refused_witness :
  (exists self',
     socks5_request (Channel (IOStream [[x05; x03; x00; x01; x00; x50]]
                                       [x05; x00] false) None [])
     = (Ret (PyBool false), self') /\
     sent (local_stream self')
     = [x05; x00] ++ [x05; x07; x00; x01; x00; x00; x00; x00; x10; x10] /\
     remote_stream self' = None)
  /\
  (exists self',
     socks5_request (Channel (IOStream [[x05; x02; x00; x01]; [x7f; x00]]
                                       [x05; x00] false) None [])
     = (Ret (PyBool false), self') /\
     sent (local_stream self')
     = [x05; x00] ++ [x05; x07; x00; x03; x00; xff; xff] /\
     remote_stream self' = None).
Proof.
  split.
  - apply (proj1 (@unsupported_commands_refused
                    (Channel (IOStream [[x05; x03; x00; x01; x00; x50]]
                                       [x05; x00] false) None [])
                    x05 x03 x00 x01 [x00; x50]
                    eq_refl eq_refl eq_refl)).
    reflexivity.
  - apply (proj2 (@unsupported_commands_refused
                    (Channel (IOStream [[x05; x02; x00; x01]; [x7f; x00]]
                                       [x05; x00] false) None [])
                    x05 x02 x00 x01 [x7f; x00]
                    eq_refl eq_refl eq_refl)).
    reflexivity.
Defined.

(** C7.  A CONNECT request with the host-name address type and length byte
    [L]: for [L = 0] or [L > 128] it is refused ([False]) with no reply and
    nothing decoded; for [1 <= L <= 128], followed by [L] name bytes and two
    port bytes, it is taken: the decoded name is those [L] bytes, the decoded
    port is the big-endian value of the two bytes after them, and the success
    reply is written. *)
Theorem host_name_request self (ver cmd rsv atyp len : byte) (more : list byte) :
  closed (local_stream self) = false ->
  List.concat (incoming (local_stream self)) = [ver; cmd; rsv; atyp; len] ++ more ->
  ord ver = 5 ->
  ord cmd = SOCKS5_CMD_CONNECT ->
  N.land (ord atyp) SOCKS5_ADDRESS_TYPE_MASK = SOCKS5_ADDRESS_TYPE_HOST ->
  (ord len = 0 \/ 128 < ord len ->
   exists self',
     socks5_request self = (Ret (PyBool false), self') /\
     sent (local_stream self') = sent (local_stream self) /\
     logged self' = logged self)
  /\
  (1 <= ord len <= 128 ->
   forall (name : list byte) (hi lo : byte) (rest : list byte),
     more = name ++ [hi; lo] ++ rest ->
     List.length name = N.to_nat (ord len) ->
     exists self',
       socks5_request self = (Ret PyNone, self') /\
       logged self'
       = logged self
         ++ [request_connect (Some (Host name)) (Some (256 * ord hi + ord lo))] /\
       sent (local_stream self') = sent (local_stream self) ++ reply_success).
Proof.
  destruct self as [[segs snt cl] rem lg]; simpl.
  intros -> E V C T.
  pose proof (@read_bytes_exact [ver; cmd; rsv; atyp] (len :: more)
                segs snt rem lg E) as R1.
  cbn [List.length app] in R1.
  assert (Body :
    socks5_request (Channel (IOStream segs snt false) rem lg)
    = (if (ord len <=? 0) || (128 <? ord len) then ret (PyBool false)
       else
         data <- read_bytes (N.to_nat (ord len) + 2) false ;;
         dest_port <- struct_unpack_H (skipn (N.to_nat (ord len)) data) ;;
         answer_request (Some (Host (firstn (N.to_nat (ord len)) data)))
                        (Some dest_port))
        (Channel (IOStream [more] snt false) rem lg)).
  { unfold socks5_request, bind at 1. rewrite R1.
    unfold bind at 1, item; cbn [nth_error ret].
    rewrite V; cbn [N.eqb SOCKS5_VERSION Pos.eqb negb].
    unfold bind at 1; cbn [ret]. rewrite C. cbn.
    unfold bind at 1; cbn [ret]. rewrite T. cbn.
    rewrite app_nil_r. reflexivity. }
  split.
  - intros Bad. eexists. rewrite Body.
    replace ((ord len <=? 0) || (128 <? ord len)) with true.
    + split; [reflexivity|]. simpl. auto.
    + symmetry. apply orb_true_iff.
      destruct Bad as [Z|Big]; [left; apply N.leb_le; lia|right; apply N.ltb_lt; lia].
  - intros [Lo Hi] name hi lo rest -> Len. eexists. rewrite Body.
    replace ((ord len <=? 0) || (128 <? ord len)) with false.
    + pose proof (read_buffered (name ++ [hi; lo]) rest snt rem lg) as R3.
      rewrite length_app, Len in R3. cbn [List.length] in R3.
      rewrite <- app_assoc in R3. cbn [app] in R3 |- *.
      unfold bind at 1. rewrite R3.
      rewrite <- Len.
      rewrite skipn_app, skipn_all, Nat.sub_diag. cbn [skipn app].
      rewrite firstn_app, firstn_all, Nat.sub_diag. cbn [firstn]. rewrite app_nil_r.
      split; [reflexivity|]. simpl. auto.
    + symmetry. apply orb_false_iff. split;
        [apply N.leb_gt; lia | apply N.ltb_ge; lia].
Qed.

Lemma host_name_request_witness :
  (exists self',
     socks5_request (Channel (IOStream [[x05; x01; x00; x03; x00]] [x05; x00] false)
                             None [])
     = (Ret (PyBool false), self') /\
     sent (local_stream self') = [x05; x00] /\ logged self' = [])
  /\
  (exists self',
     socks5_request (Channel (IOStream [[x05; x01; x00; x03; xc8]] [x05; x00] false)
                             None [])
     = (Ret (PyBool false), self') /\
     sent (local_stream self') = [x05; x00] /\ logged self' = [])
  /\
  (exists self',
     socks5_request
       (Channel (IOStream [[x05; x01; x00; x03; x05];
                           [x68; x6f; x73; x74; x73; x01; xbb]]
                          [x05; x00] false) None [])
     = (Ret PyNone, self') /\
     logged self'
     = [] ++ [request_connect (Some (Host [x68; x6f; x73; x74; x73]))
                              (Some (256 * ord x01 + ord xbb))] /\
     sent (local_stream self') = [x05; x00] ++ reply_success).
Proof.
  split; [|split].
  - apply (proj1 (@host_name_request
                    (Channel (IOStream [[x05; x01; x00; x03; x00]] [x05; x00] false)
                             None [])
                    x05 x01 x00 x03 x00 [] eq_refl eq_refl eq_refl eq_refl eq_refl)).
    left. reflexivity.
  - apply (proj1 (@host_name_request
                    (Channel (IOStream [[x05; x01; x00; x03; xc8]] [x05; x00] false)
                             None [])
                    x05 x01 x00 x03 xc8 [] eq_refl eq_refl eq_refl eq_refl eq_refl)).
    right. reflexivity.
  - apply (proj2 (@host_name_request
                    (Channel (IOStream [[x05; x01; x00; x03; x05];
                                        [x68; x6f; x73; x74; x73; x01; xbb]]
                                       [x05; x00] false) None [])
                    x05 x01 x00 x03 x05 [x68; x6f; x73; x74; x73; x01; xbb]
                    eq_refl eq_refl eq_refl eq_refl eq_refl)
             ltac:(split; vm_compute; discriminate)
             [x68; x6f; x73; x74; x73] x01 xbb [] eq_refl eq_refl).
Defined.

(** ** What the CONNECT path does not do *)

Lemma keeps_remote_bind {A B : Type} (m : Co A) (k : A -> Co B) :
  keeps_remote m -> (forall a, keeps_remote (k a)) -> keeps_remote (bind m k).
Proof.
  intros Hm Hk self. unfold bind.
  specialize (Hm self). destruct (m self) as [[a|e] s1]; simpl in *.
  - rewrite Hk. exact Hm.
  - exact Hm.
Qed.

Lemma keeps_remote_ret {A : Type} (a : A) : keeps_remote (ret a).
Proof. intros self. reflexivity. Qed.

Lemma keeps_remote_raise {A : Type} (e : exn) : keeps_remote (@raise _ A e).
Proof. intros self. reflexivity. Qed.

Lemma keeps_remote_logging r : keeps_remote (logging r).
Proof. intros self. reflexivity. Qed.

Lemma keeps_remote_write data : keeps_remote (write data).
Proof. intros self. unfold write. destruct (closed (local_stream self)); reflexivity. Qed.

Lemma keeps_remote_read n partial : keeps_remote (read_bytes n partial).
Proof.
  intros [[segs snt cl] rem lg]. unfold read_bytes; simpl.
  destruct cl; [reflexivity|]. destruct partial.
  - destruct (next_segment segs) as [[seg rest]|]; reflexivity.
  - destruct (Nat.leb n (List.length (List.concat segs))); reflexivity.
Qed.

Lemma keeps_remote_item data i : keeps_remote (@item StreamChannel data i).
Proof. intros self. unfold item. destruct (nth_error data i); reflexivity. Qed.

Lemma keeps_remote_unpack buf : keeps_remote (@struct_unpack_H StreamChannel buf).
Proof. intros self. destruct buf as [|a [|b [|c l]]]; reflexivity. Qed.

Lemma keeps_remote_ntoa buf : keeps_remote (@inet_ntoa StreamChannel buf).
Proof. intros self. destruct buf as [|a [|b [|c [|d [|e l]]]]]; reflexivity. Qed.

Lemma keeps_remote_ntop buf : keeps_remote (@inet_ntop_AF_INET6 StreamChannel buf).
Proof.
  intros self. unfold inet_ntop_AF_INET6.
  destruct (Nat.eqb (List.length buf) 16); reflexivity.
Qed.

Lemma keeps_remote_ord_bytes bs : keeps_remote (@ord_bytes StreamChannel bs).
Proof. intros self. destruct bs as [|a [|b l]]; reflexivity. Qed.

Create HintDb remote.

#[local] Hint Resolve keeps_remote_ret keeps_remote_raise keeps_remote_logging
  keeps_remote_write keeps_remote_read keeps_remote_item keeps_remote_unpack
  keeps_remote_ntoa keeps_remote_ntop keeps_remote_ord_bytes : remote.

Ltac keeps_remote_step :=
  match goal with
  | |- keeps_remote (bind _ _) => apply keeps_remote_bind; [|intros ?]
  | |- keeps_remote (if ?c then _ else _) => destruct c
  | |- keeps_remote _ => solve [auto with remote]
  end.

Lemma socks5_auth_keeps_remote : keeps_remote socks5_auth.
Proof. unfold socks5_auth. repeat keeps_remote_step. Qed.

Lemma socks5_request_keeps_remote : keeps_remote socks5_request.
Proof. unfold socks5_request, answer_request. repeat keeps_remote_step. Qed.

(** No run of [start] on a channel without a remote stream gives it one. *)
Lemma start_never_connects self :
  remote_stream self = None -> remote_stream (snd (start self)) = None.
Proof.
  intros Hn. unfold start, bind.
  pose proof (socks5_auth_keeps_remote self) as Ha.
  destruct (socks5_auth self) as [[r|e] s1]; simpl in Ha; [|simpl; congruence].
  assert (D : forall s, remote_stream s = None -> remote_stream (snd (destroy s)) = None).
  { intros s Hs. destruct (destroy_closes s) as (s' & -> & _ & _ & _ & K). auto. }
  destruct (negb (truthy r)); [apply D; congruence|].
  pose proof (socks5_request_keeps_remote s1) as Hr.
  destruct (socks5_request s1) as [[r2|e2] s2]; simpl in Hr; [|simpl; congruence].
  destruct (negb (truthy r2)); apply D; congruence.
Qed.

Lemma never_true_bind {A : Type} (m : Co A) (k : A -> Co pyret) :
  (forall a, never_true (k a)) -> never_true (bind m k).
Proof.
  intros Hk self r self'. unfold bind.
  destruct (m self) as [[a|e] s1]; [apply Hk | discriminate].
Qed.

Lemma never_true_ret_false : never_true (ret (PyBool false)).
Proof. intros self r self' H. injection H as <- _. reflexivity. Qed.

Lemma never_true_ret_none : never_true (ret PyNone).
Proof. intros self r self' H. injection H as <- _. reflexivity. Qed.

Ltac never_true_step :=
  match goal with
  | |- never_true (bind _ _) => apply never_true_bind; intros ?
  | |- never_true (if ?c then _ else _) => destruct c
  | |- never_true (ret (PyBool false)) => apply never_true_ret_false
  | |- never_true (ret PyNone) => apply never_true_ret_none
  end.

(** [socks5_request] has no [gen.Return(True)]: whatever the request, [start]
    takes its result for a refusal. *)
Lemma socks5_request_never_true : never_true socks5_request.
Proof. unfold socks5_request, answer_request. repeat never_true_step. Qed.

(** C1.  The run of a CONNECT request whose host name decodes: after the
    method selection 05 01 00 and the request 05 01 00 03 05 "hosts" 01 BB,
    [start] writes 05 00 and the success reply, then closes the client's
    stream at once; the channel has no remote stream, and no byte the client
    might send afterwards is relayed anywhere. *)
Theorem connect_request_is_closed_at_once :
  start (accept [[x05; x01; x00];
                 [x05; x01; x00; x03; x05; x68; x6f; x73; x74; x73; x01; xbb]])
  = (Ret tt,
     Channel (IOStream [[]] ([x05; x00] ++ reply_success) true)
             None
             [request_connect (Some (Host [x68; x6f; x73; x74; x73])) (Some 443);
              destroying_local]).
Proof. vm_compute. reflexivity. Qed.

(** C2.  Every CONNECT request with the IPv4 address type, with its six
    bytes there, ends in [struct.error]: the port is unpacked from the four
    address bytes.  Nothing is decoded or logged, and no reply is written. *)
Theorem ipv4_request_raises self (ver cmd rsv atyp a b c d hi lo : byte)
        (more : list byte) :
  closed (local_stream self) = false ->
  List.concat (incoming (local_stream self))
  = [ver; cmd; rsv; atyp; a; b; c; d; hi; lo] ++ more ->
  ord ver = 5 ->
  ord cmd = SOCKS5_CMD_CONNECT ->
  N.land (ord atyp) SOCKS5_ADDRESS_TYPE_MASK = SOCKS5_ADDRESS_TYPE_IPV4 ->
  socks5_request self
  = (Raise StructError,
     set_local (IOStream [more] (sent (local_stream self)) false) self).
Proof.
  destruct self as [[segs snt cl] rem lg]; simpl.
  intros -> E V C T.
  pose proof (@read_bytes_exact [ver; cmd; rsv; atyp] (a :: b :: c :: d :: hi :: lo :: more)
                segs snt rem lg E) as R1.
  cbn [List.length app] in R1.
  unfold socks5_request, bind at 1. rewrite R1.
  unfold bind at 1, item; cbn [nth_error ret].
  rewrite V; cbn [N.eqb SOCKS5_VERSION Pos.eqb negb].
  unfold bind at 1; cbn [ret]. rewrite C. cbn.
  unfold bind at 1; cbn [ret]. rewrite T. cbn.
  rewrite app_nil_r. reflexivity.
Qed.

Lemma ipv4_request_raises_witness :
  socks5_request
    (Channel (IOStream [[x05; x01; x00; x01; x7f; x00; x00; x01; x00; x50]]
                       [x05; x00] false) None [])
  = (Raise StructError, Channel (IOStream [[]] [x05; x00] false) None []).
Proof.
  apply (@ipv4_request_raises
           (Channel (IOStream [[x05; x01; x00; x01; x7f; x00; x00; x01; x00; x50]]
                              [x05; x00] false) None [])
           x05 x01 x00 x01 x7f x00 x00 x01 x00 x50 []);
    reflexivity.
Defined.

(** The whole of scenario 2: the error leaves [start] before any [destroy]. *)
Lemma scenario_2_run :
  start (accept [[x05; x01; x00];
                 [x05; x01; x00; x01; x7f; x00; x00; x01; x00; x50]])
  = (Raise StructError, Channel (IOStream [[]] [x05; x00] false) None []).
Proof. vm_compute. reflexivity. Qed.

(** C3.  A CONNECT request whose address-type byte, under the mask, is none
    of IPv4, IPv6 and host name is not refused with [False]: no branch of the
    decoding is taken, nothing is decoded, and the success reply is written
    all the same. *)
Theorem unknown_address_type_answered self (ver cmd rsv atyp : byte)
        (more : list byte) :
  closed (local_stream self) = false ->
  List.concat (incoming (local_stream self)) = [ver; cmd; rsv; atyp] ++ more ->
  ord ver = 5 ->
  ord cmd = SOCKS5_CMD_CONNECT ->
  N.land (ord atyp) SOCKS5_ADDRESS_TYPE_MASK <> SOCKS5_ADDRESS_TYPE_IPV4 ->
  N.land (ord atyp) SOCKS5_ADDRESS_TYPE_MASK <> SOCKS5_ADDRESS_TYPE_IPV6 ->
  N.land (ord atyp) SOCKS5_ADDRESS_TYPE_MASK <> SOCKS5_ADDRESS_TYPE_HOST ->
  exists self',
    socks5_request self = (Ret PyNone, self') /\
    logged self' = logged self ++ [request_connect None None] /\
    sent (local_stream self') = sent (local_stream self) ++ reply_success.
Proof.
  intros Open E V C T4 T6 TH.
  pose proof (read_header _ Open E) as R.
  apply N.eqb_neq in T4, T6, TH.
  eexists. split.
  - unfold socks5_request, bind at 1. rewrite R.
    unfold bind at 1, item; cbn [nth_error ret].
    rewrite V; cbn [N.eqb SOCKS5_VERSION Pos.eqb negb].
    unfold bind at 1; cbn [ret]. rewrite C. cbn.
    unfold bind at 1; cbn [ret]. rewrite T4, T6, TH.
    reflexivity.
  - simpl. auto.
Qed.

Lemma unknown_address_type_answered_witness :
  exists self',
    socks5_request (Channel (IOStream [[x05; x01; x00; x02]] [x05; x00] false)
                            None [])
    = (Ret PyNone, self') /\
    logged self' = [] ++ [request_connect None None] /\
    sent (local_stream self') = [x05; x00] ++ reply_success.
Proof.
  apply (@unknown_address_type_answered
           (Channel (IOStream [[x05; x01; x00; x02]] [x05; x00] false) None [])
           x05 x01 x00 x02 []); try reflexivity; vm_compute; discriminate.
Defined.

End SocksFacts.

(** * Properties of the CONNECT tunnel *)

Module TunnelFacts.

Import Http.

Lemma start_tunnel_relaying self0 self1 (u : iostream) :
  start_tunnel (Done u) self0 = (Ret tt, self1) -> relaying self1.
Proof.
  destruct self0 as [[[sc cc cbc scc]|] up lg]; [|discriminate].
  destruct u as [su cu cbu scu].
  unfold start_tunnel, bind, result, ret, logging, read_until_close, write, attr;
    simpl.
  destruct cc; [discriminate|].
  intros H; injection H as <-.
  unfold relaying; simpl. do 2 eexists. repeat split.
Qed.

Ltac crush_relaying :=
  unfold relaying; simpl; do 2 eexists; repeat split.

Lemma deliver_relaying (ev : event) self :
  relaying self -> relaying (snd (deliver ev self)).
Proof.
  intros (c & u & Hc & Hu & Ecc & Esc & Ecu & Esu).
  destruct self as [cl up lg]; simpl in Hc, Hu; subst cl up.
  destruct c as [sc cc cbc scc], u as [su cu cbu scu]; simpl in *; subst.
  destruct ev as [[|] chunk | [|] data];
    unfold deliver, run_for, bind, attr, close, run_callback, client_close,
      upstream_close, write, bind, attr, is_closed, logging, ret, raise; simpl;
    destruct cc, cu; simpl; try (crush_relaying; fail);
    destruct data; simpl; crush_relaying.
Qed.

Lemma run_events_relaying (evs : list event) self :
  relaying self -> relaying (run_events evs self).
Proof.
  revert self. induction evs as [|ev evs IH]; intros self R; simpl.
  - exact R.
  - apply IH, deliver_relaying, R.
Qed.

Ltac finished_goal :=
  first [ reflexivity
        | discriminate
        | intros _; simpl; rewrite ?app_nil_r; reflexivity
        | intros H; discriminate H
        | eexists; split; reflexivity ].

(** The end of either stream, delivered to a relaying handler. *)
Lemma finished_when_relaying self (who : side) (data : list byte) :
  relaying self ->
  exists s t self',
    stream_of who self = Some s /\
    stream_of (other who) self = Some t /\
    deliver (Finished who data) self = (Ret tt, self') /\
    (closed t = false ->
     stream_of (other who) self'
     = Some (IOStream (sent t ++ data) true (close_callback t)
                      (streaming_callback t))) /\
    (closed t = true -> stream_of (other who) self' = Some t) /\
    (exists t', stream_of (other who) self' = Some t' /\ closed t' = true).
Proof.
  intros (c & u & Hc & Hu & Ecc & Esc & Ecu & Esu).
  destruct self as [cl up lg]; simpl in Hc, Hu; subst cl up.
  destruct c as [sc cc cbc scc], u as [su cu cbu scu]; simpl in *; subst.
  destruct who; simpl;
    unfold deliver, run_for, bind, attr, close, run_callback, client_close,
      upstream_close, write, bind, attr, is_closed, logging, ret, raise; simpl.
  - destruct cu, data as [|b data]; simpl; do 3 eexists; repeat split;
      finished_goal.
  - destruct cc, data as [|b data]; simpl; do 3 eexists; repeat split;
      finished_goal.
Qed.

(** C8.  Once [start_tunnel] has set the tunnel up, and whatever the two
    streams have reported since, the end of either stream reaches the other
    one: if the other stream is still open, the data read last is written to
    it and it is then closed; if it is already closed, it is left exactly as
    it is.  Either way the other stream is closed afterwards. *)
Theorem tunnel_close_propagates self0 self1 (u : iostream) (evs : list event)
        (who : side) (data : list byte) :
  start_tunnel (Done u) self0 = (Ret tt, self1) ->
  exists s t self',
    stream_of who (run_events evs self1) = Some s /\
    stream_of (other who) (run_events evs self1) = Some t /\
    deliver (Finished who data) (run_events evs self1) = (Ret tt, self') /\
    (closed t = false ->
     stream_of (other who) self'
     = Some (IOStream (sent t ++ data) true (close_callback t)
                      (streaming_callback t))) /\
    (closed t = true -> stream_of (other who) self' = Some t) /\
    (exists t', stream_of (other who) self' = Some t' /\ closed t' = true).
Proof.
  intros St. apply finished_when_relaying, run_events_relaying.
  eapply start_tunnel_relaying. exact St.
Qed.

Lemma tunnel_close_propagates_witness :
  exists s t self',
    stream_of Client
      (run_events [Received Client [x68; x69]]
         (snd (start_tunnel (Done (IOStream [] false None None))
                 (Handler (Some (IOStream [] false None None)) None []))))
    = Some s /\
    stream_of Upstream
      (run_events [Received Client [x68; x69]]
         (snd (start_tunnel (Done (IOStream [] false None None))
                 (Handler (Some (IOStream [] false None None)) None []))))
    = Some t /\
    deliver (Finished Client [x21])
      (run_events [Received Client [x68; x69]]
         (snd (start_tunnel (Done (IOStream [] false None None))
                 (Handler (Some (IOStream [] false None None)) None []))))
    = (Ret tt, self') /\
    (closed t = false ->
     stream_of Upstream self'
     = Some (IOStream (sent t ++ [x21]) true (close_callback t)
                      (streaming_callback t))) /\
    (closed t = true -> stream_of Upstream self' = Some t) /\
    (exists t', stream_of Upstream self' = Some t' /\ closed t' = true).
Proof.
  apply (@tunnel_close_propagates
           (Handler (Some (IOStream [] false None None)) None [])
           (snd (start_tunnel (Done (IOStream [] false None None))
                   (Handler (Some (IOStream [] false None None)) None [])))
           (IOStream [] false None None)
           [Received Client [x68; x69]] Client [x21]).
  reflexivity.
Defined.

(** The run behind the witness: "hi" is relayed, then "!" and the close. *)
Example tunnel_run :
  upstream
    (run_events [Received Client [x68; x69]; Finished Client [x21];
                 Finished Upstream []]
       (snd (start_tunnel (Done (IOStream [] false None None))
               (Handler (Some (IOStream [] false None None)) None []))))
  = Some (IOStream [x68; x69; x21] true (Some Cb_upstream_close)
                   (Some Cb_client_write)).
Proof. reflexivity. Qed.

(** A connector that fails: [future.result()] raises in [start_tunnel] before
    any of its writes, and the exception leaves the callback. *)
Lemma start_tunnel_of_failed_connect (e : exn) self :
  start_tunnel (Failed e) self = (Raise e, self).
Proof. reflexivity. Qed.

End TunnelFacts.

(** * More on the SOCKS5 negotiator *)

Module SocksMore.

Import Socks Effects SocksFacts.

(** ** The other requests *)

(** X1.  A CONNECT request with the IPv6 address type, followed by sixteen
    address bytes and two port bytes, decodes: the address is the sixteen
    bytes, the port the big-endian value of the two bytes after them; the
    success reply is written, and the bytes behind the request stay unread. *)
Theorem ipv6_request_decoding self (ver cmd rsv atyp hi lo : byte)
        (addr more : list byte) :
  closed (local_stream self) = false ->
  List.concat (incoming (local_stream self))
  = [ver; cmd; rsv; atyp] ++ addr ++ [hi; lo] ++ more ->
  List.length addr = 16%nat ->
  ord ver = 5 ->
  ord cmd = SOCKS5_CMD_CONNECT ->
  N.land (ord atyp) SOCKS5_ADDRESS_TYPE_MASK = SOCKS5_ADDRESS_TYPE_IPV6 ->
  exists self',
    socks5_request self = (Ret PyNone, self') /\
    logged self'
    = logged self
      ++ [request_connect (Some (Inet6 addr)) (Some (256 * ord hi + ord lo))] /\
    sent (local_stream self') = sent (local_stream self) ++ reply_success /\
    incoming (local_stream self') = [more].
Proof.
  destruct self as [[segs snt cl] rem lg]; simpl.
  intros -> E Len V C T.
  pose proof (@read_bytes_exact [ver; cmd; rsv; atyp] (addr ++ [hi; lo] ++ more)
                segs snt rem lg E) as R1.
  pose proof (read_buffered (addr ++ [hi; lo]) more snt rem lg) as R2.
  rewrite length_app, Len in R2. rewrite <- app_assoc in R2.
  cbn [List.length app Nat.add] in R1, R2.
  eexists. split.
  - unfold socks5_request, bind at 1. rewrite R1.
    unfold bind at 1, item; cbn [nth_error ret].
    rewrite V; cbn [N.eqb SOCKS5_VERSION Pos.eqb negb].
    unfold bind at 1; cbn [ret]. rewrite C.
    cbn [N.eqb SOCKS5_CMD_CONNECT SOCKS5_CMD_UDP_ASSOCIATE SOCKS5_CMD_BIND
         Pos.eqb negb].
    unfold bind at 1; cbn [ret]. rewrite T.
    cbn [N.eqb SOCKS5_ADDRESS_TYPE_IPV4 SOCKS5_ADDRESS_TYPE_IPV6 Pos.eqb].
    unfold bind at 1. cbn [app]. rewrite R2.
    rewrite firstn_app, <- Len, firstn_all, Nat.sub_diag. cbn [firstn].
    rewrite app_nil_r.
    rewrite skipn_app, skipn_all, Nat.sub_diag. cbn [skipn app].
    unfold inet_ntop_AF_INET6. rewrite Len. cbn. reflexivity.
  - simpl. auto.
Qed.

Lemma ipv6_request_decoding_witness :
  exists self',
    socks5_request
      (Channel (IOStream [[x05; x01; x00; x04];
                          [x20; x01; x0d; xb8; x00; x00; x00; x00;
                           x00; x00; x00; x00; x00; x00; x00; x01;
                           x00; x50; x47]]
                         [x05; x00] false) None [])
    = (Ret PyNone, self') /\
    logged self'
    = [] ++ [request_connect
               (Some (Inet6 [x20; x01; x0d; xb8; x00; x00; x00; x00;
                             x00; x00; x00; x00; x00; x00; x00; x01]))
               (Some (256 * ord x00 + ord x50))] /\
    sent (local_stream self') = [x05; x00] ++ reply_success /\
    incoming (local_stream self') = [[x47]].
Proof.
  apply (@ipv6_request_decoding
           (Channel (IOStream [[x05; x01; x00; x04];
                               [x20; x01; x0d; xb8; x00; x00; x00; x00;
                                x00; x00; x00; x00; x00; x00; x00; x01;
                                x00; x50; x47]]
                              [x05; x00] false) None [])
           x05 x01 x00 x04 x00 x50
           [x20; x01; x0d; xb8; x00; x00; x00; x00;
            x00; x00; x00; x00; x00; x00; x00; x01] [x47]);
    reflexivity.
Defined.

(** X2.  A request with a version byte other than 5, or with version 5 and a
    command that is none of CONNECT, BIND and UDP_ASSOCIATE, is refused
    without any reply; only the four header bytes have been read. *)
Theorem request_refused_in_silence self (ver cmd rsv atyp : byte)
        (more : list byte) :
  closed (local_stream self) = false ->
  List.concat (incoming (local_stream self)) = [ver; cmd; rsv; atyp] ++ more ->
  ord ver <> 5 \/
  (ord cmd <> SOCKS5_CMD_CONNECT /\ ord cmd <> SOCKS5_CMD_BIND /\
   ord cmd <> SOCKS5_CMD_UDP_ASSOCIATE) ->
  exists self',
    socks5_request self = (Ret (PyBool false), self') /\
    sent (local_stream self') = sent (local_stream self) /\
    incoming (local_stream self') = [more] /\
    remote_stream self' = remote_stream self.
Proof.
  intros Open E Bad.
  pose proof (read_header _ Open E) as R.
  unfold socks5_request, bind at 1. rewrite R.
  unfold bind at 1, item; cbn [nth_error ret].
  destruct (N.eqb_spec (ord ver) SOCKS5_VERSION) as [V|V]; cbn [negb].
  - destruct Bad as [Bad|(C1 & C2 & C3)]; [contradiction|].
    apply N.eqb_neq in C1, C2, C3.
    unfold bind at 1; cbn [ret]. rewrite C1, C2, C3. cbn [negb].
    eexists. split; [reflexivity|]. simpl. auto.
  - eexists. split; [reflexivity|]. simpl. auto.
Qed.

Lemma request_refused_in_silence_witness :
  (exists self',
     socks5_request
       (Channel (IOStream [[x04; x01; x00; x50; x7f; x00]] [x05; x00] false) None [])
     = (Ret (PyBool false), self') /\
     sent (local_stream self') = [x05; x00] /\
     incoming (local_stream self') = [[x7f; x00]] /\
     remote_stream self' = None)
  /\
  (exists self',
     socks5_request
       (Channel (IOStream [[x05; x09; x00; x01]] [x05; x00] false) None [])
     = (Ret (PyBool false), self') /\
     sent (local_stream self') = [x05; x00] /\
     incoming (local_stream self') = [[]] /\
     remote_stream self' = None).
Proof.
  split.
  - apply (@request_refused_in_silence
             (Channel (IOStream [[x04; x01; x00; x50; x7f; x00]] [x05; x00] false)
                      None [])
             x04 x01 x00 x50 [x7f; x00] eq_refl eq_refl).
    left. vm_compute. discriminate.
  - apply (@request_refused_in_silence
             (Channel (IOStream [[x05; x09; x00; x01]] [x05; x00] false) None [])
             x05 x09 x00 x01 [] eq_refl eq_refl).
    right. repeat split; vm_compute; discriminate.
Defined.

(** X3.  Only the low four bits of the address-type byte count: two requests
    that differ in nothing but the high four bits of that byte are treated
    alike (0x13 is a host name as 0x03 is). *)
Theorem address_type_high_bits_ignored (segs segs' : list (list byte))
        (snt : list byte) (rem : option iostream) (lg : list log_record)
        (ver cmd rsv atyp atyp' : byte) (more : list byte) :
  List.concat segs = [ver; cmd; rsv; atyp] ++ more ->
  List.concat segs' = [ver; cmd; rsv; atyp'] ++ more ->
  N.land (ord atyp) 0xF = N.land (ord atyp') 0xF ->
  socks5_request (Channel (IOStream segs snt false) rem lg)
  = socks5_request (Channel (IOStream segs' snt false) rem lg).
Proof.
  intros E E' Low.
  pose proof (@read_bytes_exact [ver; cmd; rsv; atyp] more segs snt rem lg E) as R.
  pose proof (@read_bytes_exact [ver; cmd; rsv; atyp'] more segs' snt rem lg E') as R'.
  cbn [List.length] in R, R'.
  unfold socks5_request at 1. unfold bind at 1. rewrite R.
  unfold bind at 1, item at 1; cbn [nth_error ret].
  symmetry.
  unfold socks5_request at 1. unfold bind at 1. rewrite R'.
  unfold bind at 1, item at 1; cbn [nth_error ret].
  destruct (negb (ord ver =? SOCKS5_VERSION)); [reflexivity|].
  unfold bind at 1, item at 1; cbn [nth_error ret].
  symmetry.
  unfold bind at 1, item at 1; cbn [nth_error ret].
  destruct (ord cmd =? SOCKS5_CMD_UDP_ASSOCIATE); [reflexivity|].
  destruct (ord cmd =? SOCKS5_CMD_BIND); [reflexivity|].
  destruct (negb (ord cmd =? SOCKS5_CMD_CONNECT)); [reflexivity|].
  unfold bind at 1, item at 1; cbn [nth_error ret].
  symmetry.
  unfold bind at 1, item at 1; cbn [nth_error ret].
  unfold SOCKS5_ADDRESS_TYPE_MASK. rewrite Low. reflexivity.
Qed.

Lemma address_type_high_bits_ignored_witness :
  socks5_request
    (Channel (IOStream [[x05; x01; x00; x13; x01; x61; x00; x50]] [x05; x00] false)
             None [])
  = socks5_request
      (Channel (IOStream [[x05; x01; x00; x03; x01; x61; x00; x50]] [x05; x00] false)
               None []).
Proof.
  apply (@address_type_high_bits_ignored
           [[x05; x01; x00; x13; x01; x61; x00; x50]]
           [[x05; x01; x00; x03; x01; x61; x00; x50]]
           [x05; x00] None [] x05 x01 x00 x13 x03 [x01; x61; x00; x50]);
    reflexivity.
Defined.

(** ** How a run can fail *)

Lemma fails_well_bind {A B : Type} (Q : A -> Prop) (m : Co A) (k : A -> Co B) :
  fails_well m -> gives m Q -> (forall a, Q a -> fails_well (k a)) ->
  fails_well (bind m k).
Proof.
  intros Hm Hg Hk self Open. unfold bind.
  specialize (Hm self Open). specialize (Hg self).
  destruct (m self) as [[a|e] s1]; [|exact Hm].
  apply Hk; [exact (Hg a s1 eq_refl) | exact Hm].
Qed.

Lemma fails_well_bind_ret {A B : Type} (a : A) (k : A -> Co B) :
  fails_well (k a) -> fails_well (bind (ret a) k).
Proof. intros H self Open. exact (H self Open). Qed.

Lemma fails_well_ret {A : Type} (a : A) : fails_well (ret a).
Proof. intros self Open. exact Open. Qed.

Lemma fails_well_bind_struct_error {A B : Type} (k : A -> Co B) :
  fails_well (bind (raise StructError) k).
Proof. intros self Open. right. split; [reflexivity | exact Open]. Qed.

Lemma fails_well_logging r : fails_well (logging r).
Proof. intros self Open. exact Open. Qed.

Lemma fails_well_write data : fails_well (write data).
Proof. intros self Open. unfold write. rewrite Open. reflexivity. Qed.

Lemma fails_well_read n partial : fails_well (read_bytes n partial).
Proof.
  intros [[segs snt cl] rem lg]; simpl. intros ->. unfold read_bytes; simpl.
  destruct partial.
  - destruct (next_segment segs) as [[seg rest]|]; simpl; [reflexivity|].
    left. auto.
  - destruct (Nat.leb n (List.length (List.concat segs))); simpl; [reflexivity|].
    left. auto.
Qed.

Lemma fails_well_unpack buf : fails_well (@struct_unpack_H StreamChannel buf).
Proof.
  intros self Open. destruct buf as [|a [|b [|c l]]]; simpl; auto;
    right; auto.
Qed.

Lemma gives_read_exact n :
  gives (read_bytes n false) (fun data => List.length data = n).
Proof.
  intros [[segs snt cl] rem lg] data self'. unfold read_bytes; simpl.
  destruct cl; [discriminate|].
  destruct (Nat.leb_spec n (List.length (List.concat segs))); [|discriminate].
  intros E; injection E as <- _. apply firstn_length_le. assumption.
Qed.

Lemma gives_anything {A : Type} (m : Co A) : gives m (fun _ => True).
Proof. intros self a self' _. exact I. Qed.

Create HintDb fw.

#[local] Hint Resolve fails_well_ret fails_well_logging fails_well_write
  fails_well_read fails_well_unpack fails_well_bind_struct_error : fw.

Ltac explode data L :=
  repeat (destruct data as [|? data]; simpl in L; try discriminate L).

Ltac fw_read n :=
  eapply (@fails_well_bind _ _ (fun data => List.length data = n));
  [ apply fails_well_read | apply gives_read_exact | ].

Ltac fw_step :=
  cbv beta zeta;
  cbn [item nth_error ord_bytes inet_ntoa firstn skipn struct_unpack_H];
  match goal with
  | |- fails_well (if ?c then _ else _) => destruct c
  | |- fails_well (bind (ret _) _) => apply fails_well_bind_ret
  | |- fails_well (bind (read_bytes (N.to_nat ?l + 2) false) _) =>
      fw_read (N.to_nat l + 2)%nat; intros ? _
  | |- fails_well (bind (read_bytes ?n false) _) =>
      fw_read n;
      let data := fresh "data" in let L := fresh "L" in
      intros data L; explode data L
  | |- fails_well (bind _ _) =>
      eapply (@fails_well_bind _ _ (fun _ => True));
      [ solve [auto with fw] | apply gives_anything | intros ? _ ]
  | |- fails_well _ => solve [auto with fw]
  end.

Lemma socks5_auth_fails_well : fails_well socks5_auth.
Proof.
  unfold socks5_auth.
  eapply (@fails_well_bind _ _ (fun _ => True));
    [apply fails_well_read | apply gives_anything | intros data _].
  destruct (Nat.ltb_spec (List.length data) 3) as [Short|Long].
  - repeat fw_step.
  - destruct data as [|v [|n [|m ms]]]; simpl in Long; try lia.
    repeat fw_step.
Qed.

Lemma socks5_request_fails_well : fails_well socks5_request.
Proof.
  unfold socks5_request, answer_request. repeat fw_step.
  unfold inet_ntop_AF_INET6; cbn [List.length Nat.eqb]. repeat fw_step.
Qed.

Lemma destroy_returns self : exists self', destroy self = (Ret tt, self').
Proof. destruct (destroy_closes self) as (self' & D & _). eauto. Qed.

(** X4.  Whatever the client does, a run of [start] that ends in an
    exception ends in one of two ways: with [StreamClosedError] on a stream
    that is finished, or with [struct.error] on a stream left open.  No
    subscript, [ord] or address conversion of the two coroutines ever fails. *)
Theorem start_failures self (e : exn) self' :
  start self = (Raise e, self') -> failure_shape e self'.
Proof.
  destruct (closed (local_stream self)) eqn:Cl.
  - unfold start, bind, socks5_auth, bind, read_bytes. rewrite Cl.
    intros H; injection H as <- <-. left. auto.
  - unfold start, bind.
    pose proof (socks5_auth_fails_well self Cl) as Ha.
    destruct (socks5_auth self) as [[r|e1] s1].
    + destruct (negb (truthy r)).
      * destruct (destroy_returns s1) as (s2 & ->). discriminate.
      * pose proof (socks5_request_fails_well s1 Ha) as Hr.
        destruct (socks5_request s1) as [[r2|e2] s2].
        -- destruct (negb (truthy r2));
             destruct (destroy_returns s2) as (s3 & ->); discriminate.
        -- intros H; injection H as <- <-. exact Hr.
    + intros H; injection H as <- <-. exact Ha.
Qed.

Lemma start_failures_witness :
  failure_shape StructError (Channel (IOStream [[]] [x05; x00] false) None []).
Proof.
  apply (@start_failures
           (accept [[x05; x01; x00];
                    [x05; x01; x00; x01; x7f; x00; x00; x01; x00; x50]])).
  vm_compute. reflexivity.
Defined.

(** X5.  A run of [start] that returns has closed the client's stream: after
    a refused method selection, after a refused request and after an answered
    one alike. *)
Theorem start_returns_closed self self' :
  start self = (Ret tt, self') -> closed (local_stream self') = true.
Proof.
  unfold start, bind.
  destruct (socks5_auth self) as [[r|e1] s1]; [|discriminate].
  assert (D : forall s, destroy s = (Ret tt, self') ->
                        closed (local_stream self') = true).
  { intros s H. destruct (destroy_closes s) as (s' & E & C & _).
    rewrite E in H. injection H as <-. exact C. }
  destruct (negb (truthy r)); [apply D|].
  destruct (socks5_request s1) as [[r2|e2] s2]; [|discriminate].
  destruct (negb (truthy r2)); apply D.
Qed.

Lemma start_returns_closed_witness :
  closed (local_stream
            (Channel (IOStream [[]] ([x05; x00] ++ reply_bind) true) None
                     [bind_not_supported; destroying_local])) = true.
Proof.
  apply (@start_returns_closed
           (accept [[x05; x01; x00]; [x05; x02; x00; x01]])).
  vm_compute. reflexivity.
Defined.

(** ** What a run writes *)

Lemma silent_bind {A B : Type} (m : Co A) (k : A -> Co B) :
  silent m -> (forall a, silent (k a)) -> silent (bind m k).
Proof.
  intros Hm Hk self. unfold bind. specialize (Hm self).
  destruct (m self) as [[a|e] s1]; simpl in *.
  - rewrite Hk. exact Hm.
  - exact Hm.
Qed.

Lemma silent_ret {A : Type} (a : A) : silent (ret a).
Proof. intros self. reflexivity. Qed.

Lemma silent_raise {A : Type} (e : exn) : silent (@raise _ A e).
Proof. intros self. reflexivity. Qed.

Lemma silent_logging r : silent (logging r).
Proof. intros self. reflexivity. Qed.

Lemma silent_read n partial : silent (read_bytes n partial).
Proof.
  intros [[segs snt cl] rem lg]. unfold read_bytes; simpl.
  destruct cl; [reflexivity|]. destruct partial.
  - destruct (next_segment segs) as [[seg rest]|]; reflexivity.
  - destruct (Nat.leb n (List.length (List.concat segs))); reflexivity.
Qed.

Lemma silent_item data i : silent (@item StreamChannel data i).
Proof. intros self. unfold item. destruct (nth_error data i); reflexivity. Qed.

Lemma silent_unpack buf : silent (@struct_unpack_H StreamChannel buf).
Proof. intros self. destruct buf as [|a [|b [|c l]]]; reflexivity. Qed.

Lemma silent_ntoa buf : silent (@inet_ntoa StreamChannel buf).
Proof. intros self. destruct buf as [|a [|b [|c [|d [|e l]]]]]; reflexivity. Qed.

Lemma silent_ntop buf : silent (@inet_ntop_AF_INET6 StreamChannel buf).
Proof.
  intros self. unfold inet_ntop_AF_INET6.
  destruct (Nat.eqb (List.length buf) 16); reflexivity.
Qed.

Lemma silent_ord_bytes bs : silent (@ord_bytes StreamChannel bs).
Proof. intros self. destruct bs as [|a [|b l]]; reflexivity. Qed.

Lemma silent_destroy : silent destroy.
Proof.
  intros self. destruct (destroy_closes self) as (s' & -> & _ & S & _). exact S.
Qed.

Create HintDb quiet.

#[local] Hint Resolve silent_ret silent_raise silent_logging silent_read
  silent_item silent_unpack silent_ntoa silent_ntop silent_ord_bytes
  silent_destroy : quiet.

Lemma appends_of_silent {A : Type} (outs : list (list byte)) (m : Co A) :
  In [] outs -> silent m -> appends outs m.
Proof.
  intros Hin Hs self. exists []. split; [exact Hin|].
  rewrite app_nil_r. apply Hs.
Qed.

Lemma appends_bind_silent {A B : Type} (outs : list (list byte))
      (m : Co A) (k : A -> Co B) :
  In [] outs -> silent m -> (forall a, appends outs (k a)) ->
  appends outs (bind m k).
Proof.
  intros Hin Hs Hk self. unfold bind. specialize (Hs self).
  destruct (m self) as [[a|e] s1]; simpl in *.
  - destruct (Hk a s1) as (out & Ho & E). exists out. split; [exact Ho|].
    rewrite E, Hs. reflexivity.
  - exists []. split; [exact Hin|]. rewrite app_nil_r. exact Hs.
Qed.

Lemma appends_write_last {A : Type} (outs : list (list byte))
      (data : list byte) (k : unit -> Co A) :
  In [] outs -> In data outs -> (forall u, silent (k u)) ->
  appends outs (bind (write data) k).
Proof.
  intros Hin Hd Hk self. unfold bind, write.
  destruct (closed (local_stream self)) eqn:Cl; simpl.
  - exists []. split; [exact Hin|]. rewrite app_nil_r. reflexivity.
  - exists data. split; [exact Hd|]. rewrite Hk. reflexivity.
Qed.

Ltac appends_step :=
  match goal with
  | |- appends _ (if ?c then _ else _) => destruct c
  | |- appends _ (bind (write _) _) =>
      apply appends_write_last;
      [ simpl; tauto | simpl; tauto | intros ?; auto with quiet ]
  | |- appends _ (bind _ _) =>
      apply appends_bind_silent;
      [ simpl; tauto | solve [auto with quiet] | intros ? ]
  | |- appends _ _ =>
      apply appends_of_silent; [ simpl; tauto | solve [auto with quiet] ]
  end.

Lemma socks5_request_appends :
  appends [[]; reply_udp_associate; reply_bind; reply_success] socks5_request.
Proof. unfold socks5_request, answer_request. repeat appends_step. Qed.

Lemma socks5_auth_outputs self :
  match socks5_auth self with
  | (Ret (PyBool true), s1) =>
      sent (local_stream s1) = sent (local_stream self) ++ reply_no_auth
  | (_, s1) => sent (local_stream s1) = sent (local_stream self)
  end.
Proof.
  pose proof (silent_read 257 true self) as Q.
  destruct (read_bytes 257 true self) as [[data|e] s0] eqn:R; simpl in Q.
  - destruct (Nat.lt_ge_cases (List.length data) 3) as [Short|Long].
    + rewrite (socks5_auth_short _ R Short). exact Q.
    + destruct data as [|v [|n [|m ms]]]; simpl in Long; try lia.
      rewrite (socks5_auth_long _ R).
      destruct (negb (ord v =? SOCKS5_VERSION)); [exact Q|].
      destruct (ord n <? 1); [exact Q|].
      destruct (scan_methods (m :: ms) false); [|exact Q].
      simpl. rewrite Q. reflexivity.
  - unfold socks5_auth, bind. rewrite R. exact Q.
Qed.

(** X6.  Whatever the client sends, all that a run of [start] ever writes is
    one of five byte strings: nothing, 05 00, or 05 00 followed by one of the
    three fixed replies of [socks5_request]. *)
Theorem start_outputs self :
  exists out,
    In out [ [];
             [x05; x00];
             [x05; x00] ++ [x05; x07; x00; x01; x00; x00; x00; x00; x10; x10];
             [x05; x00] ++ [x05; x07; x00; x03; x00; xff; xff];
             [x05; x00] ++ [x05; x00; x00; x01; x00; x00; x00; x00; x10; x10] ]
    /\ sent (local_stream (snd (start self))) = sent (local_stream self) ++ out.
Proof.
  unfold start, bind.
  pose proof (socks5_auth_outputs self) as Ha.
  assert (Quiet : forall s,
             sent (local_stream s) = sent (local_stream self) ->
             exists out,
               In out [ [];
                        [x05; x00];
                        [x05; x00] ++ reply_udp_associate;
                        [x05; x00] ++ reply_bind;
                        [x05; x00] ++ reply_success ]
               /\ sent (local_stream (snd (destroy s)))
                  = sent (local_stream self) ++ out).
  { intros s E. exists []. split; [simpl; tauto|].
    rewrite silent_destroy, app_nil_r. exact E. }
  destruct (socks5_auth self) as [[[|[|]]|e] s1]; cbn [truthy negb].
  - apply Quiet, Ha.
  - destruct (socks5_request_appends s1) as (out2 & Hin & E).
    exists ([x05; x00] ++ out2). split.
    + simpl in Hin. destruct Hin as [<-|[<-|[<-|[<-|[]]]]]; simpl; tauto.
    + destruct (socks5_request s1) as [[r2|e2] s2]; simpl in E |- *.
      * assert (D : sent (local_stream (snd (destroy s2)))
                    = sent (local_stream s2)) by apply silent_destroy.
        destruct (negb (truthy r2)); rewrite D, E, Ha, <- app_assoc; reflexivity.
      * rewrite E, Ha, <- app_assoc. reflexivity.
  - apply Quiet, Ha.
  - exists []. split; [simpl; tauto|]. simpl. rewrite app_nil_r. exact Ha.
Qed.

(** X9.  [destroy] closes the client's stream, and the remote one when the
    channel has one, without touching what they hold; a second [destroy]
    changes neither stream. *)
Theorem destroy_twice self :
  exists s1 s2,
    destroy self = (Ret tt, s1) /\ destroy s1 = (Ret tt, s2) /\
    local_stream s1 = close (local_stream self) /\
    remote_stream s1 = option_map close (remote_stream self) /\
    local_stream s2 = local_stream s1 /\
    remote_stream s2 = remote_stream s1.
Proof.
  destruct self as [l [r|] lg]; unfold destroy; simpl;
    do 2 eexists; repeat split.
Qed.

(** X7.  A channel without a remote stream never gets one: not from
    [socks5_auth], not from [socks5_request], not from a whole run of
    [start].  No path of the class opens a connection to a destination. *)
Theorem no_remote_stream_ever self :
  remote_stream self = None ->
  remote_stream (snd (socks5_auth self)) = None /\
  remote_stream (snd (socks5_request self)) = None /\
  remote_stream (snd (start self)) = None.
Proof.
  intros Hn. repeat split.
  - rewrite socks5_auth_keeps_remote. exact Hn.
  - rewrite socks5_request_keeps_remote. exact Hn.
  - apply start_never_connects. exact Hn.
Qed.

Lemma no_remote_stream_ever_witness :
  remote_stream
    (snd (socks5_auth
            (accept [[x05; x01; x00]; [x05; x01; x00; x03; x01; x61; x00; x50]])))
  = None /\
  remote_stream
    (snd (socks5_request
            (accept [[x05; x01; x00]; [x05; x01; x00; x03; x01; x61; x00; x50]])))
  = None /\
  remote_stream
    (snd (start
            (accept [[x05; x01; x00]; [x05; x01; x00; x03; x01; x61; x00; x50]])))
  = None.
Proof.
  apply (@no_remote_stream_ever
           (accept [[x05; x01; x00]; [x05; x01; x00; x03; x01; x61; x00; x50]])).
  reflexivity.
Defined.

(** X8.  No result of [socks5_request] is true for Python: it returns
    [False] or runs off its end.  [start] therefore takes every request, the
    answered ones included, for a refusal. *)
Theorem request_result_never_true self (r : pyret) self' :
  socks5_request self = (Ret r, self') -> truthy r = false.
Proof. apply socks5_request_never_true. Qed.

Lemma request_result_never_true_witness : truthy PyNone = false.
Proof.
  apply (@request_result_never_true
           (Channel (IOStream [[x05; x01; x00; x03; x01; x61; x00; x50]]
                              [x05; x00] false) None [])
           PyNone
           (Channel (IOStream [[]] ([x05; x00] ++ reply_success) false) None
                    [request_connect (Some (Host [x61])) (Some 80)])).
  vm_compute. reflexivity.
Defined.

End SocksMore.

(** * More on the CONNECT tunnel *)

Module TunnelMore.

Import Http TunnelEffects TunnelFacts.

(** ** Chunks on their way through *)

(** One chunk read on [who], with the other side open. *)
Lemma received_when_relaying self (who : side) (chunk : list byte) t :
  relaying self ->
  stream_of (other who) self = Some t ->
  closed t = false ->
  exists self',
    deliver (Received who chunk) self = (Ret tt, self') /\
    relaying self' /\
    stream_of (other who) self'
    = Some (IOStream (sent t ++ chunk) false (close_callback t)
                     (streaming_callback t)).
Proof.
  intros (c & u & Hc & Hu & Ecc & Esc & Ecu & Esu).
  destruct self as [cl up lg]; simpl in Hc, Hu; subst cl up.
  destruct c as [sc cc cbc scc], u as [su cu cbu scu]; simpl in *; subst.
  destruct who; simpl; intros E; injection E as <-; simpl; intros ->;
    unfold deliver, run_for, bind, attr, run_callback, write, bind, attr, ret;
    simpl;
    eexists; (split; [reflexivity|]); split;
    try reflexivity; unfold relaying; simpl; do 2 eexists; repeat split.
Qed.

(** X10.  Chunks read on one side of a tunnel, and then the end of that side
    with its last data: if the other side is open, it has been written all the
    chunks in the order they were read, then the last data, and is closed. *)
Theorem relay_in_order (chunks : list (list byte)) (data : list byte)
        (who : side) self t :
  relaying self ->
  stream_of (other who) self = Some t ->
  closed t = false ->
  exists t',
    stream_of (other who)
      (run_events (map (Received who) chunks ++ [Finished who data]) self)
    = Some t' /\
    sent t' = sent t ++ List.concat chunks ++ data /\
    closed t' = true.
Proof.
  revert self t. induction chunks as [|chunk chunks IH]; intros self t R St Open.
  - cbn [map app run_events].
    destruct (finished_when_relaying who data R)
      as (s & t0 & self' & _ & St0 & D & Hopen & _).
    rewrite St in St0. injection St0 as <-.
    rewrite D. cbn [snd]. rewrite (Hopen Open). eexists. repeat split.
  - cbn [map app run_events].
    destruct (received_when_relaying who chunk R St Open) as (self' & D & R' & St').
    rewrite D. cbn [snd].
    destruct (IH self' _ R' St' eq_refl) as (t' & E & S & C).
    exists t'. repeat split; auto.
    rewrite S. simpl. rewrite <- !app_assoc. reflexivity.
Qed.

Lemma relay_in_order_witness :
  exists t',
    stream_of Upstream
      (run_events (map (Received Client) [[x68]; [x69]] ++ [Finished Client [x21]])
         (Handler (Some (IOStream [] false (Some Cb_client_close)
                                  (Some Cb_upstream_write)))
                  (Some (IOStream [x3e] false (Some Cb_upstream_close)
                                  (Some Cb_client_write))) []))
    = Some t' /\
    sent t' = [x3e] ++ List.concat [[x68]; [x69]] ++ [x21] /\
    closed t' = true.
Proof.
  apply (@relay_in_order [[x68]; [x69]] [x21] Client
           (Handler (Some (IOStream [] false (Some Cb_client_close)
                                    (Some Cb_upstream_write)))
                    (Some (IOStream [x3e] false (Some Cb_upstream_close)
                                    (Some Cb_client_write))) [])
           (IOStream [x3e] false (Some Cb_upstream_close) (Some Cb_client_write))).
  - unfold relaying. simpl. do 2 eexists. repeat split.
  - reflexivity.
  - reflexivity.
Defined.

(** X11.  A chunk read on one side when the other side is already closed is
    not relayed: the write raises [StreamClosedError], the closed side keeps
    what it had been sent, and the side the chunk was read on is closed in
    its turn, the exception having left its callback. *)
Theorem chunk_for_closed_side_is_dropped self (who : side)
        (chunk : list byte) s t :
  relaying self ->
  stream_of who self = Some s ->
  stream_of (other who) self = Some t ->
  closed t = true ->
  deliver (Received who chunk) self
  = (Raise StreamClosedError,
     set_stream who (IOStream (sent s) true (close_callback s)
                              (streaming_callback s)) self).
Proof.
  intros (c & u & Hc & Hu & Ecc & Esc & Ecu & Esu).
  destruct self as [cl up lg]; simpl in Hc, Hu; subst cl up.
  destruct c as [sc cc cbc scc], u as [su cu cbu scu]; simpl in *; subst.
  destruct who; simpl; intros E E'; injection E as <-; injection E' as <-;
    simpl; intros ->; reflexivity.
Qed.

Lemma chunk_for_closed_side_is_dropped_witness :
  deliver (Received Upstream [x68; x69])
    (Handler (Some (IOStream [x3e] true (Some Cb_client_close)
                             (Some Cb_upstream_write)))
             (Some (IOStream [] false (Some Cb_upstream_close)
                             (Some Cb_client_write))) [])
  = (Raise StreamClosedError,
     set_stream Upstream
       (IOStream (sent (IOStream [] false (Some Cb_upstream_close)
                                 (Some Cb_client_write)))
                 true
                 (close_callback (IOStream [] false (Some Cb_upstream_close)
                                           (Some Cb_client_write)))
                 (streaming_callback (IOStream [] false (Some Cb_upstream_close)
                                               (Some Cb_client_write))))
       (Handler (Some (IOStream [x3e] true (Some Cb_client_close)
                                (Some Cb_upstream_write)))
                (Some (IOStream [] false (Some Cb_upstream_close)
                                (Some Cb_client_write))) [])).
Proof.
  apply (@chunk_for_closed_side_is_dropped
           (Handler (Some (IOStream [x3e] true (Some Cb_client_close)
                                    (Some Cb_upstream_write)))
                    (Some (IOStream [] false (Some Cb_upstream_close)
                                    (Some Cb_client_write))) [])
           Upstream [x68; x69]
           (IOStream [] false (Some Cb_upstream_close) (Some Cb_client_write))
           (IOStream [x3e] true (Some Cb_client_close) (Some Cb_upstream_write))).
  - unfold relaying. simpl. do 2 eexists. repeat split.
  - reflexivity.
  - reflexivity.
  - reflexivity.
Defined.

(** ** A closed stream stays as it is *)

Lemma keeps_frozen_bind {A B : Type} (m : Cb A) (k : A -> Cb B) :
  keeps_frozen m -> (forall a, keeps_frozen (k a)) -> keeps_frozen (bind m k).
Proof.
  intros Hm Hk who snt self F. unfold bind.
  specialize (Hm who snt self F).
  destruct (m self) as [[a|e] s1]; simpl in *.
  - apply Hk. exact Hm.
  - exact Hm.
Qed.

Lemma keeps_frozen_ret {A : Type} (a : A) : keeps_frozen (ret a).
Proof. intros who snt self F. exact F. Qed.

Lemma keeps_frozen_raise {A : Type} (e : exn) : keeps_frozen (@raise _ A e).
Proof. intros who snt self F. exact F. Qed.

Lemma keeps_frozen_logging r : keeps_frozen (logging r).
Proof.
  intros who snt [c u lg] (s & E & C & S). exists s.
  destruct who; simpl in *; auto.
Qed.

Lemma keeps_frozen_attr w : keeps_frozen (attr w).
Proof.
  intros who snt self F. unfold attr.
  destruct (stream_of w self); exact F.
Qed.

Lemma keeps_frozen_update (w : side) (s' : iostream) who snt self s :
  stream_of w self = Some s ->
  (closed s = true -> closed s' = true /\ sent s' = sent s) ->
  frozen who snt self -> frozen who snt (set_stream w s' self).
Proof.
  intros Hw Same (s0 & E & C & S).
  destruct self as [c u lg]; destruct who, w; simpl in *;
    try (exists s0; auto; fail);
    rewrite Hw in E; injection E as <-;
    destruct (Same C) as (C' & S'); exists s'; repeat split; congruence.
Qed.

Lemma keeps_frozen_write w data : keeps_frozen (write w data).
Proof.
  intros who snt self F. unfold write, bind, attr.
  destruct (stream_of w self) as [s|] eqn:Hw; simpl; [|exact F].
  destruct (closed s) eqn:Cl; simpl; [exact F|].
  apply (keeps_frozen_update _ _ Hw); [|exact F]. congruence.
Qed.

Lemma keeps_frozen_close w : keeps_frozen (close w).
Proof.
  intros who snt self F. unfold close, bind, attr.
  destruct (stream_of w self) as [s|] eqn:Hw; simpl; [|exact F].
  apply (keeps_frozen_update _ _ Hw); [|exact F]. simpl. auto.
Qed.

Lemma keeps_frozen_run_for (w : side) (m : Cb unit) :
  keeps_frozen m -> keeps_frozen (run_for w m).
Proof.
  intros Hm who snt self F. unfold run_for.
  specialize (Hm who snt self F).
  destruct (m self) as [[a|e] s1]; simpl in *; [exact Hm|].
  apply keeps_frozen_close. exact Hm.
Qed.

Create HintDb ice.

#[local] Hint Resolve keeps_frozen_ret keeps_frozen_raise keeps_frozen_logging
  keeps_frozen_attr keeps_frozen_write keeps_frozen_close : ice.

Ltac keeps_frozen_step :=
  match goal with
  | |- keeps_frozen (bind _ _) => apply keeps_frozen_bind; [|intros ?]
  | |- keeps_frozen (run_for _ _) => apply keeps_frozen_run_for
  | |- keeps_frozen (if ?c then _ else _) => destruct c
  | |- keeps_frozen (match ?c with Some _ => _ | None => _ end) => destruct c
  | |- keeps_frozen (run_callback ?cb _) => destruct cb; cbn [run_callback]
  | |- keeps_frozen (client_close _) => unfold client_close, is_closed
  | |- keeps_frozen (upstream_close _) => unfold upstream_close, is_closed
  | |- keeps_frozen _ => solve [auto with ice]
  end.

Lemma deliver_keeps_frozen (ev : event) : keeps_frozen (deliver ev).
Proof. destruct ev; unfold deliver; repeat keeps_frozen_step. Qed.

(** X12.  Once a stream of the handler is closed, nothing that either side
    reports afterwards changes what it has been sent, and it stays closed:
    the callbacks never write to a closed stream. *)
Theorem closed_stream_is_left_alone (evs : list event) (who : side) self s :
  stream_of who self = Some s ->
  closed s = true ->
  exists s',
    stream_of who (run_events evs self) = Some s' /\
    closed s' = true /\ sent s' = sent s.
Proof.
  intros E C.
  assert (F : frozen who (sent s) self) by (exists s; auto).
  clear E C. revert self F.
  induction evs as [|ev evs IH]; intros self F; simpl.
  - exact F.
  - apply IH, deliver_keeps_frozen, F.
Qed.

Lemma closed_stream_is_left_alone_witness :
  exists s',
    stream_of Upstream
      (run_events [Received Client [x68]; Finished Client [x69];
                   Finished Upstream [x6a]]
         (Handler (Some (IOStream [] false (Some Cb_client_close)
                                  (Some Cb_upstream_write)))
                  (Some (IOStream [x3e] true (Some Cb_upstream_close)
                                  (Some Cb_client_write))) []))
    = Some s' /\
    closed s' = true /\
    sent s' = sent (IOStream [x3e] true (Some Cb_upstream_close)
                             (Some Cb_client_write)).
Proof.
  apply (@closed_stream_is_left_alone
           [Received Client [x68]; Finished Client [x69]; Finished Upstream [x6a]]
           Upstream
           (Handler (Some (IOStream [] false (Some Cb_client_close)
                                    (Some Cb_upstream_write)))
                    (Some (IOStream [x3e] true (Some Cb_upstream_close)
                                    (Some Cb_client_write))) [])
           (IOStream [x3e] true (Some Cb_upstream_close) (Some Cb_client_write)));
    reflexivity.
Defined.

(** ** Setting the tunnel up *)

(** X13.  A CONNECT whose connector succeeds, on a client stream that is
    open: the client is written exactly the line
    [HTTP/1.0 200 Connection established] and an empty line, the upstream
    stream is written nothing, and the handler is relaying. *)
Theorem connect_establishes (stream u : iostream) self :
  closed stream = false ->
  exists c' u' self',
    connect stream (Done u) self = (Ret tt, self') /\
    client self' = Some c' /\ upstream self' = Some u' /\
    sent c'
    = sent stream
      ++ list_byte_of_string "HTTP/1.0 200 Connection established"
      ++ [x0d; x0a; x0d; x0a] /\
    closed c' = false /\
    sent u' = sent u /\ closed u' = closed u /\
    relaying self'.
Proof.
  destruct stream as [sc cc cbc scc], u as [su cu cbu scu], self as [c0 u0 lg].
  simpl. intros ->.
  do 3 eexists. split; [reflexivity|]. simpl.
  repeat split. unfold relaying; simpl. do 2 eexists. repeat split.
Qed.

Lemma connect_establishes_witness :
  exists c' u' self',
    connect (IOStream [] false None None) (Done (IOStream [] false None None))
            (Handler None None [])
    = (Ret tt, self') /\
    client self' = Some c' /\ upstream self' = Some u' /\
    sent c'
    = sent (IOStream [] false None None)
      ++ list_byte_of_string "HTTP/1.0 200 Connection established"
      ++ [x0d; x0a; x0d; x0a] /\
    closed c' = false /\
    sent u' = sent (IOStream [] false None None) /\
    closed u' = closed (IOStream [] false None None) /\
    relaying self'.
Proof.
  apply (@connect_establishes (IOStream [] false None None)
           (IOStream [] false None None) (Handler None None [])).
  reflexivity.
Defined.

End TunnelMore.

(** * Properties of the GET and POST handler *)

Module WebFacts.

Import Web.

Local Open Scope web_scope.
Local Open Scope string_scope.

(** ** Header lists *)

Lemma get_list_app (name : string) (hs hs' : list header) :
  get_list name (hs ++ hs') = (get_list name hs ++ get_list name hs')%list.
Proof. unfold get_list. rewrite filter_app, map_app. reflexivity. Qed.

Lemma get_list_kept (name : string) (names : list string) (hs : list header) :
  get_list name (filter (fun h => negb (is_in (fst h) names)) hs)
  = if is_in name names then [] else get_list name hs.
Proof.
  unfold get_list. induction hs as [|[n v] hs IH]; simpl.
  - destruct (is_in name names); reflexivity.
  - destruct (String.eqb_spec n name) as [->|Ne].
    + destruct (is_in name names) eqn:I; simpl.
      * exact IH.
      * rewrite String.eqb_refl. simpl. rewrite IH. reflexivity.
    + destruct (is_in n names); simpl; [exact IH|].
      destruct (String.eqb_spec n name); [contradiction|]. exact IH.
Qed.

Lemma get_list_without_same (name : string) (hs : list header) :
  get_list name (without name hs) = [].
Proof.
  unfold get_list, without. induction hs as [|[n v] hs IH]; simpl; [reflexivity|].
  destruct (String.eqb_spec n name) as [->|Ne]; simpl; [exact IH|].
  destruct (String.eqb_spec n name); [contradiction|]. exact IH.
Qed.

Lemma get_list_without_other (name other : string) (hs : list header) :
  name <> other -> get_list name (without other hs) = get_list name hs.
Proof.
  intros Ne. unfold get_list, without.
  induction hs as [|[n v] hs IH]; simpl; [reflexivity|].
  destruct (String.eqb_spec n other) as [->|No]; simpl.
  - destruct (String.eqb_spec other name); [congruence|]. exact IH.
  - destruct (String.eqb_spec n name); simpl; rewrite IH; reflexivity.
Qed.

Lemma bind_ok {A B : Type} (m : W A) (k : A -> W B) self (b : B) self' :
  bind m k self = (Ok b, self') ->
  exists a s1, m self = (Ok a, s1) /\ k a s1 = (Ok b, self').
Proof.
  unfold bind. destruct (m self) as [[a|e] s1]; [|discriminate].
  intros H. exists a, s1. auto.
Qed.

Section Framework.

Variable acceptable : string -> bool.
Variable fetch : HTTPRequest -> fetched.

(** ** The loop over the response headers *)

Lemma forward_headers_ok (hs : list header) self self' :
  forward_headers acceptable hs self = (Ok tt, self') ->
  self'
  = set_reply_headers
      (reply_headers self
       ++ filter (fun h => negb (is_in (fst h) not_forwarded)) hs) self.
Proof.
  revert self. induction hs as [|[n v] hs IH]; intros self;
    cbn [forward_headers filter fst].
  - intros H; injection H as <-. rewrite app_nil_r. destruct self; reflexivity.
  - unfold bind at 1. destruct (negb (is_in n not_forwarded)).
    + unfold add_header. destruct (acceptable v); [|discriminate].
      intros H. apply IH in H. rewrite H.
      unfold set_reply_headers; simpl. rewrite <- app_assoc. reflexivity.
    + apply IH.
Qed.

Lemma forward_headers_total (hs : list header) self :
  (forall h, In h hs -> acceptable (snd h) = true) ->
  exists self', forward_headers acceptable hs self = (Ok tt, self').
Proof.
  revert self. induction hs as [|[n v] hs IH]; intros self Acc;
    cbn [forward_headers].
  - eexists. reflexivity.
  - unfold bind at 1. destruct (negb (is_in n not_forwarded)).
    + unfold add_header.
      pose proof (Acc (n, v) (or_introl eq_refl)) as Av. cbn [snd] in Av.
      rewrite Av.
      apply IH. intros h Hh. apply Acc. right. exact Hh.
    + apply IH. intros h Hh. apply Acc. right. exact Hh.
Qed.

(** [handle_response] on such a response, when it returns. *)
Lemma handle_response_answered (response : HTTPResponse) self self' :
  answered response ->
  handle_response acceptable response self = (Ok tt, self') ->
  finished self = false /\
  self'
  = Handler (request self) (code response, Some (reason response))
      (match body response with
       | Some (b :: bs) =>
           without "Content-Length"
             (reply_headers self
              ++ filter (fun h => negb (is_in (fst h) not_forwarded))
                        (headers response))
           ++ [("Content-Length", decimal (N.of_nat (List.length (b :: bs))))]
       | _ =>
           reply_headers self
           ++ filter (fun h => negb (is_in (fst h) not_forwarded))
                     (headers response)
       end)%list
      (match body response with
       | Some (b :: bs) => written self ++ b :: bs
       | _ => written self
       end)%list
      true (logged self).
Proof.
  intros A H. unfold handle_response in H.
  apply bind_ok in H. destruct H as ([] & s3 & H & Fin).
  assert (E : match error response with
              | Some (false, _) => False
              | _ => True
              end).
  { destruct A as [->|(t & ->)]; exact I. }
  assert (Body :
    (set_status (code response) (Some (reason response)) ;;
     forward_headers acceptable (headers response) ;;
     match body response with
     | Some (b :: bs) =>
         set_header "Content-Length" (N.of_nat (List.length (b :: bs))) ;;
         write (b :: bs)
     | _ => ret tt
     end) self = (Ok tt, s3)).
  { destruct (error response) as [[[|] t]|]; try contradiction; exact H. }
  clear H E A.
  apply bind_ok in Body. destruct Body as ([] & s1 & St & Body).
  apply bind_ok in Body. destruct Body as ([] & s2 & Fw & Body).
  apply forward_headers_ok in Fw.
  unfold set_status in St. injection St as <-. subst s2.
  destruct self as [rq st hs wr fin lg].
  unfold set_reply_headers in Body; cbn in Body.
  unfold finish in Fin.
  destruct (body response) as [[|b bs]|].
  - unfold ret in Body. injection Body as <-. cbn in Fin.
    destruct fin; [discriminate|]. injection Fin as <-. split; reflexivity.
  - unfold bind, set_header, write in Body; cbn in Body.
    destruct fin; [discriminate|]. injection Body as <-. cbn in Fin.
    injection Fin as <-. split; reflexivity.
  - unfold ret in Body. injection Body as <-. cbn in Fin.
    destruct fin; [discriminate|]. injection Fin as <-. split; reflexivity.
Qed.

(** ** The reply to an upstream answer *)

(** The reply that [handle_response] has put together for an upstream answer
    when it comes to [finish]. *)
Lemma handle_response_reaches_finish (response : HTTPResponse) self :
  answered response ->
  finished self = false ->
  (forall h, In h (headers response) -> acceptable (snd h) = true) ->
  handle_response acceptable response self
  = finish
      (Handler (request self) (code response, Some (reason response))
         (match body response with
          | Some (b :: bs) =>
              without "Content-Length"
                (reply_headers self
                 ++ filter (fun h => negb (is_in (fst h) not_forwarded))
                           (headers response))
              ++ [("Content-Length", decimal (N.of_nat (List.length (b :: bs))))]
          | _ =>
              reply_headers self
              ++ filter (fun h => negb (is_in (fst h) not_forwarded))
                        (headers response)
          end)%list
         (match body response with
          | Some (b :: bs) => written self ++ b :: bs
          | _ => written self
          end)%list
         false (logged self)).
Proof.
  intros A F Acc. destruct self as [rq st hs wr fin lg]; simpl in F; subst fin.
  assert (E : match error response with
              | Some (false, _) => False
              | _ => True
              end).
  { destruct A as [->|(t & ->)]; exact I. }
  unfold handle_response.
  destruct (error response) as [[[|] t]|]; try contradiction; clear E A;
    unfold bind, set_status; cbn beta iota;
    match goal with
    | |- context [forward_headers _ ?hs ?s] =>
        destruct (@forward_headers_total hs s Acc) as (s1 & Fw);
        rewrite Fw; apply forward_headers_ok in Fw; subst s1
    end;
    destruct (body response) as [[|b bs]|]; reflexivity.
Qed.

(** X14.  For an upstream answer (or an [HTTPError] response) with header
    values the framework accepts, on a reply not yet finished:
    [handle_response] comes to [finish] with the upstream's status and
    reason, and with a reply that carries, under every name other than
    Content-Length, what it carried before followed by the upstream's values
    under that name, in their order and as often as they occur; except that
    nothing is taken over under Transfer-Encoding, Content-Encoding and
    Connection. *)
Theorem response_headers_forwarded (response : HTTPResponse) self
        (name : string) :
  answered response ->
  finished self = false ->
  (forall h, In h (headers response) -> acceptable (snd h) = true) ->
  name <> "Content-Length" ->
  exists s,
    handle_response acceptable response self = finish s /\
    status s = (code response, Some (reason response)) /\
    get_list name (reply_headers s)
    = (get_list name (reply_headers self)
       ++ if is_in name ["Transfer-Encoding"; "Content-Encoding"; "Connection"]
          then [] else get_list name (headers response))%list.
Proof.
  intros A F Acc Ne.
  eexists. split; [apply (@handle_response_reaches_finish response self A F Acc)|].
  cbn [status reply_headers]. split; [reflexivity|].
  assert (K : is_in name not_forwarded
              = is_in name ["Transfer-Encoding"; "Content-Encoding"; "Connection"]).
  { unfold not_forwarded. cbn [is_in existsb].
    destruct (String.eqb_spec name "Content-Length"); [contradiction|reflexivity]. }
  destruct (body response) as [[|b bs]|];
    rewrite ?get_list_app, ?get_list_without_other by exact Ne;
    rewrite ?get_list_app, get_list_kept, K; try reflexivity.
  unfold get_list at 3. cbn [filter fst].
  destruct (String.eqb_spec "Content-Length" name); [congruence|].
  cbn [map]. rewrite app_nil_r. reflexivity.
Qed.

(** X15.  In the same case the upstream's Content-Length is never taken
    over.  With a body that is not empty, [handle_response] comes to
    [finish] with the one Content-Length that is the length of the body and
    with the body written as it is; with no body, or an empty one, it comes
    to [finish] with Content-Length as it was and nothing written. *)
Theorem content_length_of_reply (response : HTTPResponse) self :
  answered response ->
  finished self = false ->
  (forall h, In h (headers response) -> acceptable (snd h) = true) ->
  exists s,
    handle_response acceptable response self = finish s /\
    match body response with
    | Some (b :: bs) =>
        get_list "Content-Length" (reply_headers s)
        = [decimal (N.of_nat (List.length (b :: bs)))] /\
        written s = (written self ++ b :: bs)%list
    | _ =>
        get_list "Content-Length" (reply_headers s)
        = get_list "Content-Length" (reply_headers self) /\
        written s = written self
    end.
Proof.
  intros A F Acc.
  eexists. split; [apply (@handle_response_reaches_finish response self A F Acc)|].
  cbn [reply_headers written].
  destruct (body response) as [[|b bs]|].
  - rewrite get_list_app, get_list_kept. cbn. rewrite app_nil_r. auto.
  - rewrite get_list_app, get_list_without_same. cbn [app].
    unfold get_list. cbn [filter fst]. rewrite String.eqb_refl. auto.
  - rewrite get_list_app, get_list_kept. cbn. rewrite app_nil_r. auto.
Qed.

(** X16.  When the client failed with something that is not an [HTTPError],
    [handle_response] comes to [finish] with status 500, the text
    [Internal server error:] and the error on the next line written, and
    the headers as they were: nothing of the response (status, headers,
    body) is passed on. *)
Theorem client_error_gives_500 (response : HTTPResponse) (text : string) self :
  error response = Some (false, text) ->
  finished self = false ->
  handle_response acceptable response self
  = finish
      (Handler (request self) (500%N, None) (reply_headers self)
               (written self ++ list_byte_of_string "Internal server error:"
                ++ [x0a] ++ list_byte_of_string text)%list
               false (logged self)).
Proof.
  intros E F. destruct self as [rq st hs wr fin lg]; simpl in F; subst fin.
  unfold handle_response. rewrite E. reflexivity.
Qed.

(** X18.  [handle_response] returns only on a reply that was not finished,
    and leaves it finished, with what had been written still in front: no
    reply is finished twice or written to after its end. *)
Theorem handle_response_finishes_once (response : HTTPResponse) self self' :
  handle_response acceptable response self = (Ok tt, self') ->
  finished self = false /\ finished self' = true /\
  exists more, written self' = (written self ++ more)%list.
Proof.
  intros H.
  destruct (error response) as [[[|] t]|] eqn:E.
  - assert (A : answered response) by (right; eauto).
    destruct (@handle_response_answered response self self' A H) as (F & ->). cbn.
    repeat split; auto.
    destruct (body response) as [[|b bs]|];
      first [ eexists; reflexivity | exists []; rewrite app_nil_r; reflexivity ].
  - unfold handle_response in H. rewrite E in H.
    destruct self as [rq st hs wr fin lg].
    unfold bind, set_status, write, finish in H; cbn in H.
    destruct fin; [discriminate|]. injection H as <-. cbn.
    repeat split. eexists. reflexivity.
  - assert (A : answered response) by (left; auto).
    destruct (@handle_response_answered response self self' A H) as (F & ->). cbn.
    repeat split; auto.
    destruct (body response) as [[|b bs]|];
      first [ eexists; reflexivity | exists []; rewrite app_nil_r; reflexivity ].
Qed.

(** ** [get] *)

(** [get] up to the answer of the client. *)
Lemma get_unfolded self :
  get acceptable fetch self
  = (fun self1 =>
       match fetch (outgoing (request self)) with
       | Fetched response => handle_response acceptable response self1
       | RaisedHTTPError response text =>
           (logging (debug_error text) ;;
            match response with
            | Some r => handle_response acceptable r
            | None =>
                set_status 500 None ;;
                write (internal_server_error text) ;;
                finish
            end) self1
       | RaisedOther => (Err ClientFailure, self1)
       end)
      (Handler (ServerRequest (remote_ip (request self)) (method (request self))
                              (uri (request self))
                              (without "Proxy-Connection"
                                       (request_headers (request self)))
                              (request_body (request self)))
               (status self) (reply_headers self) (written self) (finished self)
               (logged self
                ++ [handle_request (remote_ip (request self))
                                   (method (request self)) (uri (request self))])).
Proof. destruct self as [[ip m u hs bd] st rh wr fin lg]. reflexivity. Qed.

End Framework.

(** X19.  All that [get] asks of the HTTP client is one request: the
    handler's own, with the same target, method and body, with redirects not
    followed, and with the same headers except that none is called
    Proxy-Connection.  Two clients that answer this request alike lead to the
    same reply. *)
Theorem get_asks_upstream (acceptable : string -> bool)
        (fetch fetch' : HTTPRequest -> fetched) self :
  fetch (outgoing (request self)) = fetch' (outgoing (request self)) ->
  get acceptable fetch self = get acceptable fetch' self /\
  url (outgoing (request self)) = uri (request self) /\
  client_method (outgoing (request self)) = method (request self) /\
  client_body (outgoing (request self)) = request_body (request self) /\
  follow_redirects (outgoing (request self)) = false /\
  get_list "Proxy-Connection" (client_headers (outgoing (request self))) = [] /\
  (forall name, name <> "Proxy-Connection" ->
     get_list name (client_headers (outgoing (request self)))
     = get_list name (request_headers (request self))).
Proof.
  intros Agree. repeat split.
  - rewrite !get_unfolded, Agree. reflexivity.
  - apply get_list_without_same.
  - intros name Ne. apply get_list_without_other. exact Ne.
Qed.

(** X20.  On a reply not yet finished: when the client raises an
    [HTTPError] that carries no response, [get] comes to [finish] with
    status 500, the text [Internal server error:] and the error written, and
    the headers as they were; when the client raises anything else, the
    exception leaves [get] and the reply is neither written to nor
    finished. *)
Theorem get_when_client_raises (acceptable : string -> bool)
        (fetch : HTTPRequest -> fetched) self :
  finished self = false ->
  (forall text,
     fetch (outgoing (request self)) = RaisedHTTPError None text ->
     exists s,
       get acceptable fetch self = finish s /\
       status s = (500%N, None) /\
       written s = (written self ++ internal_server_error text)%list /\
       reply_headers s = reply_headers self /\
       finished s = false)
  /\
  (fetch (outgoing (request self)) = RaisedOther ->
   exists self',
     get acceptable fetch self = (Err ClientFailure, self') /\
     written self' = written self /\
     reply_headers self' = reply_headers self /\
     finished self' = false).
Proof.
  intros F. split.
  - intros text E. rewrite get_unfolded, E.
    destruct self as [rq st hs wr fin lg]; simpl in F; subst fin.
    eexists. split; [reflexivity|]. cbn. auto.
  - intros E. rewrite get_unfolded, E.
    eexists. split; [reflexivity|]. cbn. auto.
Qed.

(** ** The sample exchange *)

Lemma response_headers_forwarded_witness :
  exists s,
    handle_response accept_all sample_response sample_handler = finish s /\
    status s = (code sample_response, Some (reason sample_response)) /\
    get_list "Set-Cookie" (reply_headers s)
    = (get_list "Set-Cookie" (reply_headers sample_handler)
       ++ if is_in "Set-Cookie"
                   ["Transfer-Encoding"; "Content-Encoding"; "Connection"]
          then [] else get_list "Set-Cookie" (headers sample_response))%list.
Proof.
  apply (@response_headers_forwarded accept_all sample_response sample_handler
           "Set-Cookie").
  - left. reflexivity.
  - reflexivity.
  - intros h _. reflexivity.
  - discriminate.
Defined.

Lemma content_length_of_reply_witness :
  exists s,
    handle_response accept_all sample_response sample_handler = finish s /\
    match body sample_response with
    | Some (b :: bs) =>
        get_list "Content-Length" (reply_headers s)
        = [decimal (N.of_nat (List.length (b :: bs)))] /\
        written s = (written sample_handler ++ b :: bs)%list
    | _ =>
        get_list "Content-Length" (reply_headers s)
        = get_list "Content-Length" (reply_headers sample_handler) /\
        written s = written sample_handler
    end.
Proof.
  apply (@content_length_of_reply accept_all sample_response sample_handler).
  - left. reflexivity.
  - reflexivity.
  - intros h _. reflexivity.
Defined.

Lemma client_error_gives_500_witness :
  handle_response accept_all sample_failure sample_handler
  = finish
      (Handler (request sample_handler) (500%N, None)
               (reply_headers sample_handler)
               (written sample_handler
                ++ list_byte_of_string "Internal server error:"
                ++ [x0a] ++ list_byte_of_string "Connection refused")%list
               false (logged sample_handler)).
Proof.
  apply (@client_error_gives_500 accept_all sample_failure "Connection refused"
           sample_handler); reflexivity.
Defined.

Lemma handle_response_finishes_once_witness :
  finished sample_handler = false /\
  finished (snd (handle_response accept_all sample_response sample_handler)) = true /\
  exists more,
    written (snd (handle_response accept_all sample_response sample_handler))
    = (written sample_handler ++ more)%list.
Proof.
  apply (@handle_response_finishes_once accept_all sample_response sample_handler
           (snd (handle_response accept_all sample_response sample_handler))).
  reflexivity.
Defined.

Lemma get_asks_upstream_witness :
  get accept_all (fun _ => Fetched sample_response) sample_handler
  = get accept_all
        (fun req => if String.eqb (url req) "http://example.com/"
                    then Fetched sample_response else RaisedOther)
        sample_handler /\
  url (outgoing (request sample_handler)) = uri (request sample_handler) /\
  client_method (outgoing (request sample_handler)) = method (request sample_handler) /\
  client_body (outgoing (request sample_handler))
  = request_body (request sample_handler) /\
  follow_redirects (outgoing (request sample_handler)) = false /\
  get_list "Proxy-Connection" (client_headers (outgoing (request sample_handler)))
  = [] /\
  (forall name, name <> "Proxy-Connection" ->
     get_list name (client_headers (outgoing (request sample_handler)))
     = get_list name (request_headers (request sample_handler))).
Proof.
  apply (@get_asks_upstream accept_all (fun _ => Fetched sample_response)
           (fun req => if String.eqb (url req) "http://example.com/"
                       then Fetched sample_response else RaisedOther)
           sample_handler).
  reflexivity.
Defined.

Lemma get_when_client_raises_witness :
  (exists s,
     get accept_all (fun _ => RaisedHTTPError None "Timeout") sample_handler
     = finish s /\
     status s = (500%N, None) /\
     written s = (written sample_handler ++ internal_server_error "Timeout")%list /\
     reply_headers s = reply_headers sample_handler /\
     finished s = false)
  /\
  (exists self',
     get accept_all (fun _ => RaisedOther) sample_handler
     = (Err ClientFailure, self') /\
     written self' = written sample_handler /\
     reply_headers self' = reply_headers sample_handler /\
     finished self' = false).
Proof.
  split.
  - apply (proj1 (@get_when_client_raises accept_all
                    (fun _ => RaisedHTTPError None "Timeout") sample_handler
                    eq_refl) "Timeout").
    reflexivity.
  - apply (proj2 (@get_when_client_raises accept_all (fun _ => RaisedOther)
                    sample_handler eq_refl)).
    reflexivity.
Defined.

End WebFacts.
